(** * vec2text: the shard launcher and the corrector trainer

    A shallow embedding of

    - [experiment_scripts/run_slurm_precompute_train_hypotheses.py]
      (module [Launcher]): the script that cuts MSMARCO into shards and
      queues one SLURM job per shard;
    - [trainers/corrector.py] (module [Corrector]): [CorrectorTrainer],
      with its constructor, [generate], [compute_loss] and
      [prediction_step].

    Python dictionaries are [gmap string _], Python integers are [Z],
    exceptions are an explicit result type, and everything the two files
    import from elsewhere is left open: the clock and the SLURM client
    are section variables, the models and the inversion trainer's
    [generate] are the fields of a class. *)

From Stdlib Require Import ZArith QArith Qround String Ascii List.
From Stdlib Require Import DecimalString DecimalFacts DecimalPos DecimalZ.
From stdpp Require Import base gmap strings list.

Open Scope Z_scope.

(** ** The launcher script *)

Module Launcher.

(** [str(n)] for a Python integer.  (CPython refuses to print an integer
    of more than 4300 digits; the launcher's have seven.) *)
Definition py_str (n : Z) : string := NilZero.string_of_int (Z.to_int n).

Definition newline : ascii := "010"%char.
Definition nl : string := String newline EmptyString.

(** [s.replace("\n", " ")]: the pattern is one character long, so the
    replacement acts character by character. *)
Fixpoint replace_newlines (s : string) : string :=
  match s with
  | EmptyString => EmptyString
  | String c rest =>
      String (if Ascii.eqb c newline then " "%char else c) (replace_newlines rest)
  end.

(** The characters [str.strip()] removes from an ASCII string. *)
Definition is_space (c : ascii) : bool :=
  let n := nat_of_ascii c in
  ((9 <=? n) && (n <=? 13) || (28 <=? n) && (n <=? 32))%nat.

Fixpoint lstrip (s : string) : string :=
  match s with
  | EmptyString => EmptyString
  | String c rest => if is_space c then lstrip rest else s
  end.

Fixpoint rstrip (s : string) : string :=
  match s with
  | EmptyString => EmptyString
  | String c rest =>
      match rstrip rest with
      | EmptyString => if is_space c then EmptyString else String c EmptyString
      | r => String c r
      end
  end.

Definition strip (s : string) : string := rstrip (lstrip s).

(** [sep.join(parts)]. *)
Fixpoint join (sep : string) (parts : list string) : string :=
  match parts with
  | [] => EmptyString
  | [p] => p
  | p :: rest => p +:+ sep +:+ join sep rest
  end.

(** [needle in haystack]. *)
Fixpoint contains (needle haystack : string) : bool :=
  String.prefix needle haystack ||
  match haystack with
  | EmptyString => false
  | String _ rest => contains needle rest
  end.

(** [BASE_PYTHON_CMD.format(start_idx=..., num_samples=...)]: in the
    template every line but the first ends in a backslash, so the only
    newlines of the literal are its first and its last character. *)
Definition BASE_PYTHON_CMD_format (start_idx num_samples : Z) : string :=
  nl +:+ "python precompute_train_hypotheses.py --start_idx " +:+ py_str start_idx
     +:+ " --num_samples " +:+ py_str num_samples +:+ nl.

Definition MSMARCO_LENGTH : Z := 8753404.
Definition N_SHARDS : Z := 32.

(** [math.ceil(MSMARCO_LENGTH / N_SHARDS)]: [/] is Python's true
    division.  The quotient is taken in [Q]; for these constants it is
    273543.875, a dyadic number that the double the interpreter computes
    holds exactly. *)
Definition shard_length : Z :=
  Qceiling (inject_Z MSMARCO_LENGTH / inject_Z N_SHARDS).

(** [range(N_SHARDS)]. *)
Definition shard_indices : list Z := seqZ 0 N_SHARDS.

(** [start_idx = i * shard_length], the loop's first assignment. *)
Definition start_idx (i : Z) : Z := i * shard_length.

Definition start_idx_values : list Z := map start_idx shard_indices.

(** The half-open range of dataset rows shard [i] asks for. *)
Definition in_shard (i x : Z) : Prop :=
  start_idx i <= x < start_idx i + shard_length.

(** Values of the [slurm_kwargs] dictionary. *)
Inductive kwarg : Type :=
  | KStr (s : string)
  | KInt (n : Z).

(** One [Slurm(job_name, slurm_kwargs=..., slurm_flags=...).run(script)]. *)
Record Job : Type := mkJob {
  job_name : string;
  slurm_kwargs : gmap string kwarg;
  slurm_flags : list string;
  script : string
}.

(** What the script does to the outside world, in order. *)
Inductive event : Type :=
  | Print (line : string)
  | Submit (j : Job).

Definition submissions (tr : list event) : list Job :=
  omap (fun e => match e with Submit j => Some j | Print _ => None end) tr.

Definition printed (tr : list event) : list string :=
  omap (fun e => match e with Print s => Some s | Submit _ => None end) tr.

(** The resource request written in [run_cmd]. *)
Definition the_slurm_kwargs : gmap string kwarg :=
  list_to_map
    [ ("partition", KStr "gpu,rush");
      ("gres", KStr "gpu:a6000:1");
      ("ntasks", KInt 1);
      ("cpus-per-task", KInt 4);
      ("mem", KStr "48G");
      ("time", KStr "168:00:00") ]%string.

Definition the_slurm_flags : list string := ["requeue"]%string.

(** How a run of the script ends: it reaches its last line, or an
    exception of the SLURM client ends it early. *)
Inductive outcome : Type :=
  | Completed
  | Aborted.

Section Script.

(** The toggle at the top of the file ([True] in the repository). *)
Variable ACTUALLY_RUN_COMMAND : bool.
(** [datetime.now().strftime("%d/%m/%Y %H:%M:%S")] at the [k]-th call
    of [run_cmd]. *)
Variable dt_string : nat -> string.
(** Whether the SLURM client returns from [run] ([true]) or raises. *)
Variable slurm_returns : Job -> bool.

(** [run_cmd(cmd, job_desc)], the [k]-th call, appending to the trace. *)
Definition run_cmd (k : nat) (cmd job_desc : string) (tr : list event)
  : list event * outcome :=
  let job_name := dt_string k +:+ " " +:+ job_desc in
  let tr := tr ++ [Print ("job_name >> " +:+ job_name)] in
  let tr := tr ++ [Print ("cmd >> " +:+ strip cmd)] in
  if ACTUALLY_RUN_COMMAND then
    let j := mkJob job_name the_slurm_kwargs the_slurm_flags
                   (nl +:+ "        " +:+ cmd +:+ nl +:+ "        ") in
    let tr := tr ++ [Submit j] in
    if slurm_returns j
    then (tr ++ [Print (nl +:+ nl)], Completed)
    else (tr, Aborted)
  else (tr ++ [Print (nl +:+ nl)], Completed).

(** The body of [for i in range(N_SHARDS)]. *)
Definition loop_body (i : Z) (tr : list event) : list event * outcome :=
  let start_idx := i * shard_length in
  let cmd := BASE_PYTHON_CMD_format (i * shard_length) shard_length in
  let cmd := replace_newlines cmd in
  let job_desc :=
    join "." ["msmarco_precompute"%string; py_str start_idx; py_str shard_length] in
  run_cmd (Z.to_nat i) cmd job_desc tr.

Fixpoint for_loop (idxs : list Z) (tr : list event) : list event * outcome :=
  match idxs with
  | [] => (tr, Completed)
  | i :: rest =>
      match loop_body i tr with
      | (tr', Completed) => for_loop rest tr'
      | (tr', Aborted) => (tr', Aborted)
      end
  end.

Definition final_message : string :=
  if ACTUALLY_RUN_COMMAND
  then "successfully queued " +:+ py_str N_SHARDS +:+ " jobs."
  else "successfully queued " +:+ py_str N_SHARDS +:+ " jobs. (pretend)".

(** The whole script, from an empty trace. *)
Definition main : list event * outcome :=
  match for_loop shard_indices [] with
  | (tr, Completed) => (tr ++ [Print final_message], Completed)
  | (tr, Aborted) => (tr, Aborted)
  end.

(** What one pass through the loop adds to the trace when the SLURM
    client returns. *)
Definition shard_events (i : Z) : list event :=
  let job_desc :=
    join "." ["msmarco_precompute"%string; py_str (start_idx i); py_str shard_length] in
  let cmd := replace_newlines (BASE_PYTHON_CMD_format (start_idx i) shard_length) in
  let job_name := dt_string (Z.to_nat i) +:+ " " +:+ job_desc in
  [Print ("job_name >> " +:+ job_name); Print ("cmd >> " +:+ strip cmd)]
  ++ (if ACTUALLY_RUN_COMMAND
      then [Submit (mkJob job_name the_slurm_kwargs the_slurm_flags
                      (nl +:+ "        " +:+ cmd +:+ nl +:+ "        "))]
      else [])
  ++ [Print (nl +:+ nl)].

End Script.

(** The line [run_cmd] prints for the command of a shard. *)
Definition cmd_line (start_idx num_samples : Z) : string :=
  "cmd >> python precompute_train_hypotheses.py --start_idx " +:+ py_str start_idx
    +:+ " --num_samples " +:+ py_str num_samples.

Definition is_cmd_line (s : string) : bool := String.prefix "cmd >> " s.

(** A job asks for one week and may be requeued. *)
Definition week_long_requeue (j : Job) : Prop :=
  slurm_kwargs j !! "time"%string = Some (KStr "168:00:00")
  /\ "requeue"%string ∈ slurm_flags j.

(** [job_desc] of the loop for shard [i]. *)
Definition job_desc (i : Z) : string :=
  join "." ["msmarco_precompute"%string; py_str (start_idx i); py_str shard_length].

(** [cmd] of the loop for shard [i], after [cmd.replace]. *)
Definition collapsed_cmd (i : Z) : string :=
  replace_newlines (BASE_PYTHON_CMD_format (start_idx i) shard_length).

(** The job [run_cmd] submits for shard [i]. *)
Definition shard_job (dt_string : nat -> string) (i : Z) : Job :=
  mkJob (dt_string (Z.to_nat i) +:+ " " +:+ job_desc i) the_slurm_kwargs the_slurm_flags
        (nl +:+ "        " +:+ collapsed_cmd i +:+ nl +:+ "        ").

(** No character of [s] is one that [str.strip()] removes. *)
Fixpoint solid (s : string) : bool :=
  match s with
  | EmptyString => true
  | String c rest => negb (is_space c) && solid rest
  end.

(** [c in s]. *)
Fixpoint occurs (c : ascii) (s : string) : bool :=
  match s with
  | EmptyString => false
  | String c' rest => Ascii.eqb c' c || occurs c rest
  end.

End Launcher.

(** ** The corrector trainer *)

Module Corrector.

(** *** Tensors

    A tensor is its shape and its elements in row-major order, as torch
    stores a contiguous tensor.  Device placement is not part of the
    model: [torch.ones(..., device=...)] and [value.to(device)] keep shape
    and elements. *)

Record Tensor (A : Type) : Type := mkTensor {
  shape : list nat;
  data : list A
}.
Arguments mkTensor {A} shape data.
Arguments shape {A} t.
Arguments data {A} t.

(** Number of elements of a tensor of shape [sh]. *)
Definition numel (sh : list nat) : nat := foldr Nat.mul 1%nat sh.

Definition well_formed {A} (t : Tensor A) : Prop :=
  length (data t) = numel (shape t).

(** [torch.full(sh, x)]; [torch.ones(sh)] is [torch_full sh 1]. *)
Definition torch_full {A} (sh : list nat) (x : A) : Tensor A :=
  mkTensor sh (replicate (numel sh) x).

Definition tensor_map {A B} (f : A -> B) (t : Tensor A) : Tensor B :=
  mkTensor (shape t) (f <$> data t).

(** The first [b] consecutive blocks of [n] elements of [l]. *)
Fixpoint blocks {A} (b n : nat) (l : list A) : list (list A) :=
  match b with
  | O => []
  | S b' => take n l :: blocks b' n (drop n l)
  end.

(** The rows of a tensor along its first dimension, each row holding
    the elements of all later dimensions. *)
Definition rows {A} (t : Tensor A) : list (list A) :=
  match shape t with
  | [] => []
  | b :: rest => blocks b (numel rest) (data t)
  end.

Inductive exn : Type :=
  | KeyError (key : string)
  | ValueError
  | IndexError
  | RuntimeError
  | AssertionError
  | Dangling          (* a reference to no object; no Python program has one *)
  | External (code : nat).   (* raised inside an imported component *)

Inductive result (A : Type) : Type :=
  | Ok (a : A)
  | Raise (e : exn).
Arguments Ok {A} a.
Arguments Raise {A} e.

(** [t[:, 1:]]: needs two dimensions at least, and drops index 0 of the
    second one. *)
Definition index_all_from1 {A} (t : Tensor A) : result (Tensor A) :=
  match shape t with
  | b :: l :: rest =>
      let c := numel rest in
      Ok (mkTensor (b :: (l - 1)%nat :: rest)
                   (concat (drop c <$> blocks b (l * c) (data t))))
  | _ => Raise IndexError
  end.

(** [torch.cat((t1, t2), dim=1)]: both need a dimension 1, and every
    other dimension has to agree.  (torch skips one-dimensional empty
    tensors; the file never concatenates one.) *)
Definition torch_cat_dim1 {A} (t1 t2 : Tensor A) : result (Tensor A) :=
  match shape t1, shape t2 with
  | b1 :: l1 :: rest1, b2 :: l2 :: rest2 =>
      if decide (b1 = b2 /\ rest1 = rest2) then
        Ok (mkTensor (b1 :: (l1 + l2)%nat :: rest1)
              (concat (zip_with app
                         (blocks b1 (l1 * numel rest1) (data t1))
                         (blocks b2 (l2 * numel rest2) (data t2)))))
      else Raise RuntimeError
  | [] , _ | _, [] => Raise RuntimeError
  | _, _ => Raise IndexError
  end.

(** [batch_size, seq_length = t.shape]. *)
Definition unpack2 (sh : list nat) : result (nat * nat) :=
  match sh with
  | [b; l] => Ok (b, l)
  | _ => Raise ValueError
  end.

(** Values of a [generation_kwargs] dictionary. *)
Inductive kwval : Type :=
  | KwBool (b : bool)
  | KwInt (n : Z).

(** *** The objects the trainer is built from *)

Record TrainingArguments : Type := mkArgs {
  fp16 : bool;
  bf16 : bool;
  device : string
}.

Record Tokenizer : Type := mkTokenizer {
  eos_token_id : Z;
  pad_token_id : Z
}.

(** A parameter of [inversion_trainer.model]; only its trainability
    matters here. *)
Record ModelParameter : Type := mkModelParameter {
  param_name : string;
  requires_grad : bool
}.

Record InversionModel : Type := mkInversionModel {
  parameters : list ModelParameter;
  use_frozen_embeddings_as_input : bool;
  im_tokenizer : Tokenizer;
  im_embedder_tokenizer : Tokenizer
}.

(** The types [trainers/corrector.py] never looks inside: the float
    scalars of a tensor, the correction model, datasets and collator. *)
Class Objects : Type := {
  F : Type;
  (** the float [1.0] *)
  fone : F;
  JointEmbeddingTextEncoder : Type;
  Dataset : Type;
  DataCollator : Type
}.

Section Values.

Context `{Objects}.

(** Values of a batch: float, integer ([torch.long]) and boolean
    tensors. *)
Inductive Value : Type :=
  | VFloat (t : Tensor F)
  | VLong (t : Tensor Z)
  | VBool (t : Tensor bool).

Definition value_shape (v : Value) : list nat :=
  match v with
  | VFloat t => shape t
  | VLong t => shape t
  | VBool t => shape t
  end.

Record InversionTrainer : Type := mkInversionTrainer {
  it_model : InversionModel;
  it_args : TrainingArguments;
  it_train_dataset : Dataset;
  it_eval_dataset : Dataset;
  it_data_collator : DataCollator
}.

End Values.

(** The entry points of the imported models and of the inversion
    trainer, each a function of the object it is called on and of its
    arguments.  They give back values only: a forward pass or a
    generation changes neither the trainability of a parameter nor an
    attribute of the trainer objects. *)
Class Collaborators `{Objects} : Type := {
  (** [inversion_model.call_embedding_model(input_ids=, attention_mask=)] *)
  call_embedding_model :
    InversionModel -> Value -> Value -> result (Tensor F);
  (** [model(embedding=, input_ids=, attention_mask=)], the correction
      model's forward *)
  corrector_forward :
    JointEmbeddingTextEncoder -> Tensor F -> Value -> Value -> result (Tensor F);
  (** [inversion_model.generate(inputs=, generation_kwargs=)] *)
  inversion_model_generate :
    InversionModel -> gmap string Value -> gmap string kwval -> result (Tensor Z);
  (** [inversion_model(embedder_input_ids=, embedder_attention_mask=,
      labels=, frozen_embeddings=)]; the result is [outputs.loss] *)
  inversion_model_forward :
    InversionModel -> Value -> Value -> Value -> Value -> result (Tensor F);
  (** [inversion_trainer.generate(inputs=, generation_kwargs=)].  The
      callee is handed the caller's dictionary itself, so next to its
      result it gives the contents it leaves that dictionary with. *)
  inversion_trainer_generate :
    InversionTrainer -> gmap string Value -> gmap string kwval ->
    gmap string Value * result (Tensor Z)
}.

Section Trainer.

Context `{Collaborators}.

(** The attributes of a constructed [CorrectorTrainer].  The attribute
    [inversion_trainer] is a reference to the one inversion trainer of
    the world below, and [call_embedding_model] a bound method of its
    model. *)
Record CorrectorTrainer : Type := mkCorrectorTrainer {
  self_model : JointEmbeddingTextEncoder;
  self_args : TrainingArguments;
  self_train_dataset : Dataset;
  self_eval_dataset : Dataset;
  self_data_collator : DataCollator;
  self_tokenizer : Tokenizer;
  self_embedder_tokenizer : Tokenizer
}.

(** Calls that leave this file, with the gradient mode they run under. *)
Inductive call : Type :=
  | CallBaseTrainerInit (m : JointEmbeddingTextEncoder) (a : TrainingArguments)
  | CallEmbeddingModel (grad : bool) (input_ids attention_mask : Value)
  | CallCorrector (grad : bool) (embedding : Tensor F)
                  (input_ids attention_mask : Value)
  | CallTrainerGenerate (grad : bool) (inputs : gmap string (Value))
                        (generation_kwargs : gmap string kwval)
  | CallModelGenerate (grad : bool) (inputs : gmap string (Value))
                      (generation_kwargs : gmap string kwval)
  | CallModelForward (grad : bool)
      (embedder_input_ids embedder_attention_mask labels frozen_embeddings : Value).

(** The gradient mode a logged model call ran under. *)
Definition call_grad (c : call) : option bool :=
  match c with
  | CallBaseTrainerInit _ _ => None
  | CallEmbeddingModel g _ _ | CallCorrector g _ _ _
  | CallTrainerGenerate g _ _ | CallModelGenerate g _ _
  | CallModelForward g _ _ _ _ => Some g
  end.

(** The mutable world: torch's gradient mode, the dictionaries that
    exist (by reference), the inversion trainer object, and the log of
    calls. *)
Record World : Type := mkWorld {
  grad_enabled : bool;
  heap : gmap nat (gmap string (Value));
  inversion_trainer : InversionTrainer;
  trace : list call
}.

Definition set_grad (g : bool) (w : World) : World :=
  mkWorld g (heap w) (inversion_trainer w) (trace w).
Definition set_heap (h : gmap nat (gmap string (Value))) (w : World) : World :=
  mkWorld (grad_enabled w) h (inversion_trainer w) (trace w).
Definition set_inversion_trainer (it : InversionTrainer) (w : World) : World :=
  mkWorld (grad_enabled w) (heap w) it (trace w).
Definition log (c : call) (w : World) : World :=
  mkWorld (grad_enabled w) (heap w) (inversion_trainer w) (trace w ++ [c]).

(** Computations: a result or an exception, and the world left behind. *)
Definition M (A : Type) : Type := World -> result A * World.

#[export] Instance M_ret : MRet M := fun A a w => (Ok a, w).
#[export] Instance M_bind : MBind M := fun A B k m w =>
  match m w with
  | (Ok a, w') => k a w'
  | (Raise e, w') => (Raise e, w')
  end.

Definition lift {A} (r : result A) : M A := fun w => (r, w).
Definition get_world : M World := fun w => (Ok w, w).
Definition modify (f : World -> World) : M unit := fun w => (Ok tt, f w).

(** [with torch.no_grad(): body].  The previous mode comes back on
    exit, also when [body] raises. *)
Definition with_no_grad {A} (body : M A) : M A := fun w =>
  let prev := grad_enabled w in
  let '(r, w') := body (set_grad false w) in
  (r, set_grad prev w').

(** [inputs[key]] for the dictionary at [inputs]. *)
Definition getitem (inputs : nat) (key : string) : M (Value) := fun w =>
  match heap w !! inputs with
  | Some d =>
      match d !! key with
      | Some v => (Ok v, w)
      | None => (Raise (KeyError key), w)
      end
  | None => (Raise Dangling, w)
  end.

(** [inputs[key] = v] for the dictionary at [inputs]. *)
Definition setitem (inputs : nat) (key : string) (v : Value) : M unit := fun w =>
  match heap w !! inputs with
  | Some d => (Ok tt, set_heap (<[inputs := <[key := v]> d]> (heap w)) w)
  | None => (Raise Dangling, w)
  end.

(** The calls out of the file: log the call, then take the callee's
    answer. *)
Definition embed (input_ids attention_mask : Value) : M (Tensor F) := fun w =>
  (call_embedding_model (it_model (inversion_trainer w)) input_ids attention_mask,
   log (CallEmbeddingModel (grad_enabled w) input_ids attention_mask) w).

Definition correct (m : JointEmbeddingTextEncoder) (embedding : Tensor F)
    (input_ids attention_mask : Value) : M (Tensor F) := fun w =>
  (corrector_forward m embedding input_ids attention_mask,
   log (CallCorrector (grad_enabled w) embedding input_ids attention_mask) w).

Definition model_generate (inputs : gmap string (Value))
    (generation_kwargs : gmap string kwval) : M (Tensor Z) := fun w =>
  (inversion_model_generate (it_model (inversion_trainer w)) inputs generation_kwargs,
   log (CallModelGenerate (grad_enabled w) inputs generation_kwargs) w).

Definition model_forward
    (embedder_input_ids embedder_attention_mask labels frozen_embeddings : Value)
  : M (Tensor F) := fun w =>
  (inversion_model_forward (it_model (inversion_trainer w))
     embedder_input_ids embedder_attention_mask labels frozen_embeddings,
   log (CallModelForward (grad_enabled w)
          embedder_input_ids embedder_attention_mask labels frozen_embeddings) w).

(** The delegated [generate] works on the caller's dictionary. *)
Definition trainer_generate (inputs : nat)
    (generation_kwargs : gmap string kwval) : M (Tensor Z) := fun w =>
  match heap w !! inputs with
  | Some d =>
      let '(d', r) :=
        inversion_trainer_generate (inversion_trainer w) d generation_kwargs in
      (r, set_heap (<[inputs := d']> (heap w))
            (log (CallTrainerGenerate (grad_enabled w) d generation_kwargs) w))
  | None => (Raise Dangling, w)
  end.

(** Modelled from the spec: [freeze_params] of [models.model_utils] is
    not among the sources.  By the construction contract it marks every
    parameter of the model it is given non-trainable. *)
Definition freeze_params (m : InversionModel) : InversionModel :=
  mkInversionModel
    ((fun p => mkModelParameter (param_name p) false) <$> parameters m)
    (use_frozen_embeddings_as_input m) (im_tokenizer m) (im_embedder_tokenizer m).

Definition set_use_frozen_embeddings_as_input (b : bool) (m : InversionModel)
  : InversionModel :=
  mkInversionModel (parameters m) b (im_tokenizer m) (im_embedder_tokenizer m).

Definition update_model (f : InversionModel -> InversionModel) (w : World) : World :=
  let it := inversion_trainer w in
  set_inversion_trainer
    (mkInversionTrainer (f (it_model it)) (it_args it) (it_train_dataset it)
                        (it_eval_dataset it) (it_data_collator it)) w.

(** What [BaseTrainer.__init__] leaves on [self]. *)
Record BaseTrainer : Type := mkBaseTrainer {
  base_model : JointEmbeddingTextEncoder;
  base_args : TrainingArguments;
  base_train_dataset : Dataset;
  base_eval_dataset : Dataset;
  base_data_collator : DataCollator
}.

(** Modelled from the spec: [BaseTrainer.__init__] of [trainers.base] is
    not among the sources.  By the construction contract the base
    trainer is initialized with the correction model, the given
    configuration and the inversion trainer's two datasets and
    collator; it keeps them as [self.model], [self.args] and so on. *)
Definition BaseTrainer_init (m : JointEmbeddingTextEncoder) (a : TrainingArguments)
    (td ed : Dataset) (dc : DataCollator) : M BaseTrainer := fun w =>
  (Ok (mkBaseTrainer m a td ed dc), log (CallBaseTrainerInit m a) w).

(** [assert c]. *)
Definition assert (c : bool) : M unit :=
  if c then mret tt else lift (Raise AssertionError).

(** [CorrectorTrainer.__init__(self, model, inversion_trainer, args)],
    with [inversion_trainer] the trainer of the world. *)
Definition CorrectorTrainer_init (model : JointEmbeddingTextEncoder)
    (args : TrainingArguments) : M CorrectorTrainer :=
  modify (update_model freeze_params);;
  modify (update_model (set_use_frozen_embeddings_as_input true));;
  w ← get_world;
  let it := inversion_trainer w in
  base ← BaseTrainer_init model args
           (it_train_dataset it) (it_eval_dataset it) (it_data_collator it);
  w ← get_world;
  let it := inversion_trainer w in
  let self :=
    mkCorrectorTrainer (base_model base) (base_args base)
      (base_train_dataset base) (base_eval_dataset base) (base_data_collator base)
      (im_tokenizer (it_model it)) (im_embedder_tokenizer (it_model it)) in
  assert (bool_decide (fp16 (self_args self) = fp16 (it_args it)));;
  assert (bool_decide (bf16 (self_args self) = bf16 (it_args it)));;
  mret self.

(** [CorrectorTrainer.generate(self, inputs, generation_kwargs)]. *)
Definition generate (self : CorrectorTrainer) (inputs : nat)
    (generation_kwargs : gmap string kwval) : M (Tensor Z) :=
  new_embeddings ← with_no_grad (
    embedder_input_ids ← getitem inputs "embedder_input_ids";
    embedder_attention_mask ← getitem inputs "embedder_attention_mask";
    frozen_embeddings ← embed embedder_input_ids embedder_attention_mask;
    input_ids ← getitem inputs "input_ids";
    attention_mask ← getitem inputs "attention_mask";
    correct (self_model self) frozen_embeddings input_ids attention_mask);
  setitem inputs "frozen_embeddings" (VFloat new_embeddings);;
  trainer_generate inputs generation_kwargs.

(** The decoding settings written in [compute_loss]. *)
Definition the_generation_kwargs : gmap string kwval :=
  list_to_map
    [ ("early_stopping", KwBool false);
      ("num_beams", KwInt 1);
      ("do_sample", KwBool false);
      ("no_repeat_ngram_size", KwInt 3) ]%string.

(** [torch.ones((batch_size, seq_length), device=...)]. *)
Definition fake_embedder_tensor (batch_size seq_length : nat) : Tensor F :=
  torch_full [batch_size; seq_length] fone.

(** The values of [torch.long], and what an integer becomes when it is
    stored as one: arithmetic on a [torch.long] tensor is modulo 2^64. *)
Definition in_int64 (z : Z) : Prop := - 2 ^ 63 <= z < 2 ^ 63.

Definition wrap_int64 (z : Z) : Z := (z + 2 ^ 63) mod 2 ^ 64 - 2 ^ 63.

(** [torch.ones((batch_size, 1), dtype=torch.long, device=...) * eos_token_id]:
    the product is a [torch.long] tensor, so an id outside 64 bits
    wraps (2^63 is stored as -2^63). *)
Definition eos_tokens (batch_size : nat) (eos_token_id : Z) : Tensor Z :=
  tensor_map (fun x => wrap_int64 (x * eos_token_id)) (torch_full [batch_size; 1%nat] 1).

(** [torch.cat((hypothesis_input_ids[:, 1:], eos_tokens), dim=1)]. *)
Definition shift_and_append_eos (hypothesis_input_ids : Tensor Z)
    (batch_size : nat) (eos_token_id : Z) : result (Tensor Z) :=
  match index_all_from1 hypothesis_input_ids with
  | Ok t => torch_cat_dim1 t (eos_tokens batch_size eos_token_id)
  | Raise e => Raise e
  end.

(** [t != pad_token_id], elementwise. *)
Definition tensor_ne (t : Tensor Z) (pad_token_id : Z) : Tensor bool :=
  tensor_map (fun x => negb (x =? pad_token_id)) t.

(** The dictionary literal [compute_loss] hands to the inversion
    model's [generate]. *)
Definition generate_inputs
    (fake_embedder_input_ids fake_embedder_attention_mask frozen_embeddings : Tensor F)
  : gmap string Value :=
  list_to_map
    [ ("embedder_input_ids", VFloat fake_embedder_input_ids);
      ("embedder_attention_mask", VFloat fake_embedder_attention_mask);
      ("frozen_embeddings", VFloat frozen_embeddings) ]%string.

(** [CorrectorTrainer.compute_loss(self, model, inputs, return_outputs)];
    [model] and [return_outputs] are not read. *)
Definition compute_loss (self : CorrectorTrainer) (model : JointEmbeddingTextEncoder)
    (inputs : nat) (return_outputs : bool) : M (Tensor F) :=
  input_ids ← getitem inputs "input_ids";
  '(batch_size, seq_length) ← lift (unpack2 (value_shape input_ids));
  let fake_embedder_input_ids := fake_embedder_tensor batch_size seq_length in
  let fake_embedder_attention_mask := fake_embedder_tensor batch_size seq_length in
  frozen_embeddings ← with_no_grad (
    embedder_input_ids ← getitem inputs "embedder_input_ids";
    embedder_attention_mask ← getitem inputs "embedder_attention_mask";
    embed embedder_input_ids embedder_attention_mask);
  hypothesis_input_ids ← model_generate
    (generate_inputs fake_embedder_input_ids fake_embedder_attention_mask
                     frozen_embeddings)
    the_generation_kwargs;
  w ← get_world;
  let eos_token_id :=
    eos_token_id (im_embedder_tokenizer (it_model (inversion_trainer w))) in
  hypothesis_input_ids ←
    lift (shift_and_append_eos hypothesis_input_ids batch_size eos_token_id);
  let hypothesis_attention_mask :=
    tensor_ne hypothesis_input_ids (pad_token_id (self_embedder_tokenizer self)) in
  new_embeddings ← correct (self_model self) frozen_embeddings
    (VLong hypothesis_input_ids) (VBool hypothesis_attention_mask);
  labels ← getitem inputs "labels";
  model_forward (VFloat fake_embedder_input_ids) (VFloat fake_embedder_attention_mask)
    labels (VFloat new_embeddings).

(** [{key: value.to(device) for key, value in inputs.items()}]: a new
    dictionary, with the tensors of the old one. *)
Definition to_device (dev : string) (v : Value) : Value := v.

Definition dict_to_device (dev : string) (inputs : nat) : M nat := fun w =>
  match heap w !! inputs with
  | Some d =>
      let l := fresh (dom (heap w)) in
      (Ok l, set_heap (<[l := to_device dev <$> d]> (heap w)) w)
  | None => (Raise Dangling, w)
  end.

(** [CorrectorTrainer.prediction_step(self, model, inputs,
    prediction_loss_only, ignore_keys)]. *)
Definition prediction_step (self : CorrectorTrainer) (model : JointEmbeddingTextEncoder)
    (inputs : nat) (prediction_loss_only : bool) (ignore_keys : option (list string))
  : M (Tensor F * option (Tensor F) * option (Tensor F)) :=
  inputs ← dict_to_device (device (self_args self)) inputs;
  loss ← with_no_grad (compute_loss self model inputs false);
  let logits : option (Tensor F) := None in
  let labels : option (Tensor F) := None in
  mret (loss, logits, labels).

(** *** Predicates the properties are stated with *)

(** The inversion model is frozen and reads its embeddings from the
    batch. *)
Definition frozen_invariant (w : World) : Prop :=
  Forall (fun p => requires_grad p = false)
         (parameters (it_model (inversion_trainer w)))
  /\ use_frozen_embeddings_as_input (it_model (inversion_trainer w)) = true.

(** The gradient mode of the calls [generate] makes: the embedding and
    the correction with gradients off, the delegated generation under
    the mode [g]; it makes no other call. *)
Definition generate_call_under (g : bool) (c : call) : Prop :=
  match c with
  | CallEmbeddingModel g' _ _ | CallCorrector g' _ _ _ => g' = false
  | CallTrainerGenerate g' _ _ => g' = g
  | _ => False
  end.

(** A call ran with gradients off, or under the mode [g]. *)
Definition no_grad_or (g : bool) (c : call) : Prop :=
  call_grad c = Some false \/ call_grad c = Some g.

(** The last call of [compute_loss], if it is reached, is the forward
    pass on the two fake tensors. *)
Definition forward_on_fakes (g : bool) (batch_size seq_length : nat) (c : call) : Prop :=
  exists labels frozen_embeddings,
    c = CallModelForward g (VFloat (fake_embedder_tensor batch_size seq_length))
          (VFloat (fake_embedder_tensor batch_size seq_length)) labels frozen_embeddings.

End Trainer.

End Corrector.

(** ** A small concrete instance

    Float scalars are integers, the embedding of a batch is the sum of
    each row of token ids, the correction model adds the number of
    hypothesis tokens to each entry, and generation returns as many
    token ids as its embedder inputs have. *)

Module Demo.

Import Corrector.

#[export] Instance demo_objects : Objects := {|
  F := Z;
  fone := 1;
  JointEmbeddingTextEncoder := nat;
  Dataset := string;
  DataCollator := unit
|}.

Definition long_data (v : Value) : list Z :=
  match v with
  | VLong t => data t
  | VFloat t => data t
  | VBool t => (fun b : bool => if b then 1 else 0) <$> data t
  end.

Definition row_sums (v : Value) : Tensor Z :=
  match value_shape v with
  | b :: rest =>
      mkTensor [b; 1%nat] ((fun r => foldr Z.add 0 r) <$> blocks b (numel rest) (long_data v))
  | [] => mkTensor [] (long_data v)
  end.

Definition demo_generate (d : gmap string Value) : result (Tensor Z) :=
  match d !! "embedder_input_ids"%string with
  | Some v =>
      Ok (mkTensor (value_shape v)
            ((fun n => 10 + Z.of_nat n) <$> seq 0 (numel (value_shape v))))
  | None => Raise (KeyError "embedder_input_ids")
  end.

#[export] Instance demo_collaborators : Collaborators := {|
  call_embedding_model := fun _ input_ids _ => Ok (row_sums input_ids);
  corrector_forward := fun m e input_ids _ =>
    Ok (tensor_map (fun x => x + Z.of_nat m + Z.of_nat (length (long_data input_ids))) e);
  inversion_model_generate := fun _ d _ => demo_generate d;
  inversion_model_forward := fun _ _ _ labels frozen_embeddings =>
    Ok (mkTensor [] [foldr Z.add 0 (long_data labels)
                     + foldr Z.add 0 (long_data frozen_embeddings)]);
  inversion_trainer_generate := fun _ d _ =>
    (d, match d !! "frozen_embeddings"%string with
        | Some v => Ok (mkTensor (value_shape v) (long_data v))
        | None => Raise (KeyError "frozen_embeddings")
        end)
|}.

Definition demo_tokenizer : Tokenizer := mkTokenizer 1 0.

(** An inversion trainer in 16-bit precision whose model is trainable
    and recomputes its embeddings. *)
Definition demo_inversion_trainer : InversionTrainer :=
  mkInversionTrainer
    (mkInversionModel
       [mkModelParameter "encoder.weight" true; mkModelParameter "decoder.weight" true]
       false demo_tokenizer demo_tokenizer)
    (mkArgs true false "cuda") "train"%string "eval"%string tt.

(** A batch of two sequences of three tokens. *)
Definition demo_batch : gmap string Value :=
  list_to_map
    [ ("input_ids", VLong (mkTensor [2; 3]%nat [5; 6; 7; 8; 9; 4]));
      ("attention_mask", VLong (mkTensor [2; 3]%nat [1; 1; 1; 1; 1; 1]));
      ("embedder_input_ids", VLong (mkTensor [2; 3]%nat [2; 3; 4; 6; 7; 8]));
      ("embedder_attention_mask", VLong (mkTensor [2; 3]%nat [1; 1; 1; 1; 1; 1]));
      ("labels", VLong (mkTensor [2; 3]%nat [5; 6; 7; 8; 9; 4])) ]%string.

(** A batch of one sequence of no tokens. *)
Definition empty_batch : gmap string Value :=
  list_to_map
    [ ("input_ids", VLong (mkTensor [1; 0]%nat []));
      ("attention_mask", VLong (mkTensor [1; 0]%nat []));
      ("embedder_input_ids", VLong (mkTensor [1; 0]%nat []));
      ("embedder_attention_mask", VLong (mkTensor [1; 0]%nat []));
      ("labels", VLong (mkTensor [1; 0]%nat [])) ]%string.

(** The batch of [demo_batch], piece by piece. *)
Definition demo_ids : Value := VLong (mkTensor [2; 3]%nat [5; 6; 7; 8; 9; 4]).
Definition demo_ones : Value := VLong (mkTensor [2; 3]%nat [1; 1; 1; 1; 1; 1]).
Definition demo_embedder_ids : Value := VLong (mkTensor [2; 3]%nat [2; 3; 4; 6; 7; 8]).
(** Its embedding, the corrected embedding [generate] computes, and the
    hypothesis the inversion model generates in [compute_loss]. *)
Definition demo_embedding : Tensor Z := mkTensor [2; 1]%nat [9; 21].
Definition demo_corrected : Tensor Z := mkTensor [2; 1]%nat [19; 31].
Definition demo_generation : Tensor Z := mkTensor [2; 3]%nat [10; 11; 12; 13; 14; 15].

(** [demo_batch] with other token ids in [input_ids], of the same
    shape. *)
Definition demo_batch_other_ids : gmap string Value :=
  <["input_ids"%string := VLong (mkTensor [2; 3]%nat [40; 41; 42; 43; 44; 45])]> demo_batch.

(** [demo_batch] without its [input_ids], without its [labels], without
    its [embedder_input_ids], and with [input_ids] of one dimension. *)
Definition demo_batch_no_input_ids : gmap string Value :=
  delete "input_ids"%string demo_batch.
Definition demo_batch_no_labels : gmap string Value :=
  delete "labels"%string demo_batch.
Definition demo_batch_no_embedder_ids : gmap string Value :=
  delete "embedder_input_ids"%string demo_batch.
Definition demo_batch_flat_ids : gmap string Value :=
  <["input_ids"%string := VLong (mkTensor [6]%nat [5; 6; 7; 8; 9; 4])]> demo_batch.

(** The instance above with a generation whose shape is [reshape] of
    the shape asked for, and a correction model that may refuse. *)
Definition variant_generate (reshape : list nat -> list nat) (d : gmap string Value)
  : result (Tensor Z) :=
  match d !! "embedder_input_ids"%string with
  | Some v =>
      Ok (mkTensor (reshape (value_shape v))
            ((fun n => 10 + Z.of_nat n) <$> seq 0 (numel (reshape (value_shape v)))))
  | None => Raise (KeyError "embedder_input_ids")
  end.

Definition variant_collaborators (reshape : list nat -> list nat) (corrector_ok : bool)
  : Collaborators := {|
  call_embedding_model := fun _ input_ids _ => Ok (row_sums input_ids);
  corrector_forward := fun m e input_ids _ =>
    if corrector_ok
    then Ok (tensor_map
               (fun x => x + Z.of_nat m + Z.of_nat (length (long_data input_ids))) e)
    else Raise (External 7);
  inversion_model_generate := fun _ d _ => variant_generate reshape d;
  inversion_model_forward := fun _ _ _ labels frozen_embeddings =>
    Ok (mkTensor [] [foldr Z.add 0 (long_data labels)
                     + foldr Z.add 0 (long_data frozen_embeddings)]);
  inversion_trainer_generate := fun _ d _ =>
    (d, match d !! "frozen_embeddings"%string with
        | Some v => Ok (mkTensor (value_shape v) (long_data v))
        | None => Raise (KeyError "frozen_embeddings")
        end)
|}.

(** A generation one token longer than asked for. *)
Definition one_longer (sh : list nat) : list nat :=
  match sh with
  | [b; l] => [b; S l]
  | _ => sh
  end.

(** A generation with one more row than asked for. *)
Definition one_more_row (sh : list nat) : list nat :=
  match sh with
  | [b; l] => [S b; l]
  | _ => sh
  end.

(** A world in training mode (gradients on) holding one batch at
    address 0. *)
Definition demo_world (batch : gmap string Value) : World :=
  mkWorld true {[ 0%nat := batch ]} demo_inversion_trainer [].

(** The trainer a successful construction over [demo_inversion_trainer]
    returns. *)
Definition demo_self : CorrectorTrainer :=
  mkCorrectorTrainer 4%nat (mkArgs true false "cuda") "train"%string "eval"%string tt
    demo_tokenizer demo_tokenizer.

End Demo.

(** * Properties of the launcher *)

Module LauncherProofs.

Import Launcher.

Section Loop.

Variable ACTUALLY_RUN_COMMAND : bool.
Variable dt_string : nat -> string.
Variable slurm_returns : Job -> bool.

Lemma loop_body_events i tr :
  (ACTUALLY_RUN_COMMAND = true -> forall j, slurm_returns j = true) ->
  loop_body ACTUALLY_RUN_COMMAND dt_string slurm_returns i tr
  = (tr ++ shard_events ACTUALLY_RUN_COMMAND dt_string i, Completed).
Proof.
  intros Hret. unfold loop_body, run_cmd, shard_events, start_idx.
  destruct ACTUALLY_RUN_COMMAND.
  - rewrite Hret by reflexivity. by rewrite <- !app_assoc.
  - by rewrite <- !app_assoc.
Qed.

Lemma for_loop_events idxs : forall tr,
  (ACTUALLY_RUN_COMMAND = true -> forall j, slurm_returns j = true) ->
  for_loop ACTUALLY_RUN_COMMAND dt_string slurm_returns idxs tr
  = (tr ++ concat (shard_events ACTUALLY_RUN_COMMAND dt_string <$> idxs), Completed).
Proof.
  induction idxs as [|i rest IH]; intros tr Hret; cbn [for_loop fmap list_fmap concat].
  - by rewrite app_nil_r.
  - rewrite loop_body_events by exact Hret.
    rewrite IH by exact Hret. by rewrite <- app_assoc.
Qed.

Lemma main_events :
  (ACTUALLY_RUN_COMMAND = true -> forall j, slurm_returns j = true) ->
  main ACTUALLY_RUN_COMMAND dt_string slurm_returns
  = (concat (shard_events ACTUALLY_RUN_COMMAND dt_string <$> shard_indices)
       ++ [Print (final_message ACTUALLY_RUN_COMMAND)], Completed).
Proof.
  intros Hret. unfold main. by rewrite for_loop_events.
Qed.

End Loop.

Lemma shard_length_value : shard_length = 273544.
Proof. reflexivity. Qed.

Lemma start_idx_value i : start_idx i = i * 273544.
Proof. unfold start_idx. by rewrite shard_length_value. Qed.

Lemma the_job_week_long_requeue name script :
  week_long_requeue (mkJob name the_slurm_kwargs the_slurm_flags script).
Proof.
  split; cbn [slurm_kwargs slurm_flags].
  - reflexivity.
  - unfold the_slurm_flags. apply list_elem_of_here.
Qed.

Lemma submissions_pretend dt idxs :
  submissions (concat (shard_events false dt <$> idxs)) = [].
Proof.
  induction idxs as [|i rest IH]; [reflexivity|].
  cbn [fmap list_fmap concat]. unfold submissions in *.
  rewrite omap_app, IH. reflexivity.
Qed.

Lemma submissions_real dt idxs :
  length (submissions (concat (shard_events true dt <$> idxs))) = length idxs
  /\ Forall week_long_requeue (submissions (concat (shard_events true dt <$> idxs))).
Proof.
  induction idxs as [|i rest [IHlen IHall]]; [split; [reflexivity | constructor]|].
  cbn [fmap list_fmap concat]. unfold submissions in *.
  rewrite omap_app. split.
  - rewrite length_app, IHlen. reflexivity.
  - apply Forall_app. split; [|exact IHall].
    cbn. constructor; [apply the_job_week_long_requeue | constructor].
Qed.

(** C1: with [N_SHARDS = 32] and [MSMARCO_LENGTH = 8_753_404] the shard
    length is [ceil(8_753_404 / 32) = 273_544]; the start indices the
    loop generates are exactly [i * 273_544] for [i = 0 .. 31], in
    strictly increasing order and each a multiple of the shard length
    (they are the ones that reach the commands of the jobs); the 32
    ranges [[start_idx, start_idx + shard_length)] are pairwise disjoint;
    and the last shard ends at or after [MSMARCO_LENGTH]. *)
Theorem C1_shards_partition_msmarco :
  shard_length = 273544
  /\ start_idx_values = (fun i => i * 273544) <$> seqZ 0 32
  /\ length start_idx_values = 32%nat
  /\ (forall i j, 0 <= i < j -> j < N_SHARDS -> start_idx i < start_idx j)
  /\ Forall (fun s => (shard_length | s)) start_idx_values
  /\ (forall i j x, 0 <= i < N_SHARDS -> 0 <= j < N_SHARDS -> i <> j ->
        in_shard i x -> in_shard j x -> False)
  /\ MSMARCO_LENGTH <= start_idx (N_SHARDS - 1) + shard_length
  /\ (forall run dt sr, (run = true -> forall j, sr j = true) ->
        List.filter is_cmd_line (printed (main run dt sr).1)
        = (fun s => cmd_line s shard_length) <$> start_idx_values).
Proof.
  split; [reflexivity|]. split; [reflexivity|]. split; [reflexivity|].
  split.
  { intros i j Hij Hj. rewrite !start_idx_value. lia. }
  split.
  { unfold start_idx_values. apply Forall_fmap, Forall_forall.
    intros i _. exists i. reflexivity. }
  split.
  { unfold in_shard. intros i j x _ _ Hne. rewrite !start_idx_value, shard_length_value.
    lia. }
  split.
  { vm_compute. discriminate. }
  intros run dt sr Hret. rewrite main_events by exact Hret.
  destruct run; vm_compute; reflexivity.
Qed.

Lemma C1_shards_partition_msmarco_witness :
  start_idx 3 < start_idx 4
  /\ (in_shard 0 273543 -> in_shard 1 273543 -> False)
  /\ List.filter is_cmd_line
       (printed (main true (fun _ => "03/11/2026 11:01:00"%string) (fun _ => true)).1)
     = (fun s => cmd_line s shard_length) <$> start_idx_values.
Proof.
  destruct C1_shards_partition_msmarco as (_ & _ & _ & Hinc & _ & Hdis & _ & Hcmd).
  split; [apply Hinc; unfold N_SHARDS; lia|].
  split; [apply Hdis; unfold N_SHARDS; lia|].
  apply Hcmd. reflexivity.
Defined.

(** C8: with [ACTUALLY_RUN_COMMAND = False] the launcher submits no job
    and its last output is the message with the count 32 and the
    annotation "(pretend)"; with [ACTUALLY_RUN_COMMAND = True], and a
    SLURM client that returns from every submission, it submits exactly
    32 jobs, each asking for time "168:00:00" with the flag "requeue",
    and its last output is the message without "(pretend)". *)
Theorem C8_pretend_run_and_real_run (dt : nat -> string) (sr : Job -> bool) :
  (let '(tr, o) := main false dt sr in
   o = Completed
   /\ submissions tr = []
   /\ last tr = Some (Print "successfully queued 32 jobs. (pretend)")
   /\ contains "(pretend)" (final_message false) = true
   /\ contains "32" (final_message false) = true)
  /\ ((forall j, sr j = true) ->
      let '(tr, o) := main true dt sr in
      o = Completed
      /\ length (submissions tr) = 32%nat
      /\ Forall week_long_requeue (submissions tr)
      /\ last tr = Some (Print "successfully queued 32 jobs.")
      /\ contains "(pretend)" (final_message true) = false).
Proof.
  split.
  - rewrite main_events by discriminate.
    split; [reflexivity|]. split.
    { unfold submissions. rewrite omap_app. fold (submissions
        (concat (shard_events false dt <$> shard_indices))).
      rewrite submissions_pretend. reflexivity. }
    split; [apply last_snoc|]. split; reflexivity.
  - intros Hret. rewrite main_events by (intros _; exact Hret).
    destruct (submissions_real dt shard_indices) as [Hlen Hall].
    assert (Hsub : submissions (concat (shard_events true dt <$> shard_indices)
                                 ++ [Print (final_message true)])
                   = submissions (concat (shard_events true dt <$> shard_indices))).
    { unfold submissions. rewrite omap_app. cbn. apply app_nil_r. }
    split; [reflexivity|]. rewrite Hsub.
    split; [rewrite Hlen; reflexivity|].
    split; [exact Hall|].
    split; [apply last_snoc | reflexivity].
Qed.

Lemma C8_pretend_run_and_real_run_witness :
  let '(tr, o) := main true (fun _ => "03/11/2026 11:01:00"%string) (fun _ => true) in
  o = Completed
  /\ length (submissions tr) = 32%nat
  /\ Forall week_long_requeue (submissions tr)
  /\ last tr = Some (Print "successfully queued 32 jobs.")
  /\ contains "(pretend)" (final_message true) = false.
Proof.
  apply (C8_pretend_run_and_real_run (fun _ => "03/11/2026 11:01:00"%string) (fun _ => true)).
  reflexivity.
Defined.

End LauncherProofs.

(** * Properties of the corrector trainer *)

Module CorrectorProofs.

Import Corrector.

(** ** Rows of a tensor *)

Section Blocks.

Context {A : Type}.
Implicit Types (l : list A) (rs : list (list A)).

Lemma length_blocks b n l : length (blocks b n l) = b.
Proof.
  revert l. induction b as [|b IH]; intros l; cbn; [reflexivity|].
  by rewrite IH.
Qed.

Lemma blocks_concat rs : forall b n,
  length rs = b -> Forall (fun r => length r = n) rs ->
  blocks b n (concat rs) = rs.
Proof.
  induction rs as [|r rs IH]; intros b n Hlen Hall; subst b; [reflexivity|].
  apply Forall_cons in Hall as [Hr Hrs]. subst n. cbn.
  rewrite take_app_length, drop_app_length.
  f_equal. by apply IH.
Qed.

Lemma Forall_length_blocks b n : forall l,
  length l = (b * n)%nat -> Forall (fun r => length r = n) (blocks b n l).
Proof.
  induction b as [|b IH]; intros l Hl; cbn; constructor.
  - rewrite length_take. cbn in Hl. lia.
  - apply IH. rewrite length_drop. cbn in Hl. lia.
Qed.

Lemma blocks_replicate b n (x : A) :
  blocks b n (replicate (b * n) x) = replicate b (replicate n x).
Proof.
  induction b as [|b IH]; cbn; [reflexivity|].
  rewrite replicate_add, take_app_length', drop_app_length'
    by (symmetry; apply length_replicate).
  by rewrite IH.
Qed.

Lemma zip_with_app_replicate rs (x : A) :
  zip_with app rs (replicate (length rs) [x]) = (fun r => r ++ [x]) <$> rs.
Proof. induction rs as [|r rs IH]; cbn; [reflexivity|]. by rewrite IH. Qed.

End Blocks.

Lemma length_concat_uniform {A} (rs : list (list A)) n :
  Forall (fun r => length r = n) rs -> length (concat rs) = (length rs * n)%nat.
Proof.
  induction 1 as [|r rs Hr _ IH]; [reflexivity|].
  cbn. rewrite length_app, IH, Hr. reflexivity.
Qed.

Lemma numel_singleton n : numel [n] = n.
Proof. cbn. lia. Qed.

(** ** The drop-first, append-eos transform *)

Lemma wrap_int64_id z : in_int64 z -> wrap_int64 z = z.
Proof.
  unfold in_int64, wrap_int64. intros Hz. rewrite Z.mod_small by lia. lia.
Qed.

Lemma data_eos_tokens B eos : data (eos_tokens B eos) = replicate B (wrap_int64 eos).
Proof.
  unfold eos_tokens, tensor_map, torch_full. cbn [data numel foldr].
  rewrite fmap_replicate. f_equal; [lia|]. f_equal. lia.
Qed.

Lemma shift_and_append_eos_rows (gen : Tensor Z) (B L : nat) (eos : Z) :
  shape gen = [B; L] -> well_formed gen ->
  exists h, shift_and_append_eos gen B eos = Ok h
    /\ shape h = [B; (L - 1 + 1)%nat]
    /\ rows h = (fun r => drop 1 r ++ [wrap_int64 eos]) <$> rows gen
    /\ well_formed h.
Proof.
  intros Hsh Hwf. unfold well_formed in Hwf. rewrite Hsh in Hwf.
  cbn [numel foldr] in Hwf. rewrite Nat.mul_1_r in Hwf.
  unfold shift_and_append_eos, index_all_from1, torch_cat_dim1. rewrite Hsh.
  cbn [shape data]. change (shape (eos_tokens B eos)) with [B; 1%nat].
  cbn beta iota. rewrite decide_True by done.
  eexists. split; [reflexivity|]. cbn [shape data].
  set (gen_rows := blocks B (L * numel []) (data gen)).
  assert (Hgen_rows : rows gen = gen_rows).
  { unfold rows. rewrite Hsh. unfold gen_rows. by rewrite numel_singleton, Nat.mul_1_r. }
  assert (Hlen : length gen_rows = B) by apply length_blocks.
  assert (Hall : Forall (fun r => length r = L) gen_rows).
  { unfold gen_rows. cbn [numel foldr]. rewrite Nat.mul_1_r.
    apply Forall_length_blocks. exact Hwf. }
  assert (Hshift : blocks B ((L - 1) * numel []) (concat (drop (numel []) <$> gen_rows))
                   = drop 1 <$> gen_rows).
  { cbn [numel foldr]. apply blocks_concat.
    - by rewrite length_fmap.
    - apply Forall_fmap. eapply Forall_impl; [exact Hall|].
      intros r Hr. cbn in Hr |- *. rewrite length_drop. lia. }
  rewrite Hshift, data_eos_tokens.
  replace (blocks B (1 * numel []) (replicate B (wrap_int64 eos))) with (replicate B [wrap_int64 eos]).
  2:{ cbn [numel foldr]. change [wrap_int64 eos] with (replicate 1 (wrap_int64 eos)).
      rewrite <- (blocks_replicate B 1 (wrap_int64 eos)). by rewrite !Nat.mul_1_r. }
  replace (replicate B [wrap_int64 eos]) with (replicate (length (drop 1 <$> gen_rows)) [wrap_int64 eos])
    by (by rewrite length_fmap, Hlen).
  rewrite zip_with_app_replicate, <- list_fmap_compose.
  assert (Hnew : Forall (fun r : list Z => length r = (L - 1 + 1)%nat)
                   ((fun r => drop 1 r ++ [wrap_int64 eos]) <$> gen_rows)).
  { apply Forall_fmap. eapply Forall_impl; [exact Hall|].
    intros r Hr. cbn in Hr |- *. rewrite length_app, length_drop. cbn. lia. }
  split; [reflexivity|]. split.
  - rewrite Hgen_rows. unfold rows. cbn [shape data]. rewrite numel_singleton.
    apply blocks_concat; [by rewrite length_fmap | exact Hnew].
  - unfold well_formed. cbn [shape data numel foldr].
    rewrite (length_concat_uniform _ (L - 1 + 1)%nat) by exact Hnew.
    rewrite length_fmap, Hlen. lia.
Qed.

Lemma fake_embedder_tensor_ones `{Objects} B L :
  shape (fake_embedder_tensor B L) = [B; L]
  /\ well_formed (fake_embedder_tensor B L)
  /\ Forall (fun x => x = fone) (data (fake_embedder_tensor B L)).
Proof.
  unfold fake_embedder_tensor, torch_full, well_formed. cbn [shape data].
  split; [reflexivity|]. split; [apply length_replicate|].
  apply Forall_replicate. reflexivity.
Qed.

(** ** Running the operations *)

Ltac cbn_ops :=
  cbn -[generate_inputs the_generation_kwargs fake_embedder_tensor
        shift_and_append_eos tensor_ne unpack2 fresh].

Ltac cbn_ops_all :=
  cbn -[generate_inputs the_generation_kwargs fake_embedder_tensor
        shift_and_append_eos tensor_ne unpack2 fresh] in *.

Ltac unfold_ops :=
  unfold mbind, M_bind, mret, M_ret, with_no_grad, getitem, setitem, embed, correct,
    model_generate, model_forward, trainer_generate, dict_to_device, lift, get_world,
    modify, assert, BaseTrainer_init, set_heap, log, set_grad, set_inversion_trainer,
    update_model.

(** Closes [exists new, trace w' = trace w ++ new /\ Forall P new] once
    the trace of [w'] is an explicit extension of the one of [w]. *)
Ltac close_trace tac :=
  first
    [ exists []; split; [symmetry; apply app_nil_r | constructor]
    | eexists; split;
      [ rewrite <- ?app_assoc; reflexivity
      | repeat (apply Forall_cons; split; [tac|]); constructor ] ].

Section Run.

Context `{Collaborators}.

Lemma generate_run self (inputs : nat) kw (w : World) (d : gmap string Value)
    eids emask ids mask fe new :
  heap w !! inputs = Some d ->
  d !! "embedder_input_ids"%string = Some eids ->
  d !! "embedder_attention_mask"%string = Some emask ->
  d !! "input_ids"%string = Some ids ->
  d !! "attention_mask"%string = Some mask ->
  call_embedding_model (it_model (inversion_trainer w)) eids emask = Ok fe ->
  corrector_forward (self_model self) fe ids mask = Ok new ->
  let d' := <["frozen_embeddings"%string := VFloat new]> d in
  let out := inversion_trainer_generate (inversion_trainer w) d' kw in
  generate self inputs kw w
  = (out.2,
     mkWorld (grad_enabled w) (<[inputs := out.1]> (heap w)) (inversion_trainer w)
       (trace w ++ [CallEmbeddingModel false eids emask;
                    CallCorrector false fe ids mask;
                    CallTrainerGenerate (grad_enabled w) d' kw])).
Proof.
  intros Hd He Hm Hi Ha Hfe Hnew d' out.
  unfold generate, mbind, M_bind, with_no_grad, getitem, embed, correct, setitem,
    trainer_generate.
  repeat (progress (cbn; rewrite ?Hd, ?He, ?Hm, ?Hi, ?Ha, ?Hfe, ?Hnew)).
  rewrite lookup_insert_eq. fold d'. fold out. destruct out as [d'' r].
  unfold set_heap, log, set_grad. cbn.
  rewrite insert_insert_eq, <- !app_assoc. reflexivity.
Qed.

(** Whatever happens inside, [generate] leaves the inversion trainer
    and the gradient mode as they were, and its calls run under the
    modes of [generate_call_under]. *)
Lemma generate_frame self inputs kw w :
  let w' := (generate self inputs kw w).2 in
  inversion_trainer w' = inversion_trainer w
  /\ grad_enabled w' = grad_enabled w
  /\ exists new, trace w' = trace w ++ new
                 /\ Forall (generate_call_under (grad_enabled w)) new.
Proof.
  unfold generate. unfold_ops. cbn_ops.
  repeat (case_match; simplify_eq/=);
    (split; [reflexivity|]; split; [reflexivity|];
     close_trace ltac:(reflexivity)).
Qed.

(** [compute_loss] writes to no dictionary, leaves the inversion
    trainer and the gradient mode as they were, and its calls run with
    gradients off or under the caller's mode. *)
Lemma compute_loss_frame self m inputs ro w :
  let w' := (compute_loss self m inputs ro w).2 in
  heap w' = heap w
  /\ inversion_trainer w' = inversion_trainer w
  /\ grad_enabled w' = grad_enabled w
  /\ exists new, trace w' = trace w ++ new /\ Forall (no_grad_or (grad_enabled w)) new.
Proof.
  unfold compute_loss. unfold_ops. cbn_ops.
  repeat (case_match; simplify_eq/=);
    (split; [reflexivity|]; split; [reflexivity|]; split; [reflexivity|];
     close_trace ltac:(first [by left | by right])).
Qed.

Lemma generate_returns self inputs kw (w : World) r :
  (generate self inputs kw w).1 = Ok r ->
  exists (d : gmap string Value) eids emask ids mask fe new,
    heap w !! inputs = Some d
    /\ d !! "embedder_input_ids"%string = Some eids
    /\ d !! "embedder_attention_mask"%string = Some emask
    /\ d !! "input_ids"%string = Some ids
    /\ d !! "attention_mask"%string = Some mask
    /\ call_embedding_model (it_model (inversion_trainer w)) eids emask = Ok fe
    /\ corrector_forward (self_model self) fe ids mask = Ok new.
Proof.
  intros Hr.
  destruct (heap w !! inputs) as [d|] eqn:Hd.
  destruct (d !! "embedder_input_ids"%string) as [eids|] eqn:He.
  destruct (d !! "embedder_attention_mask"%string) as [emask|] eqn:Hm.
  destruct (call_embedding_model (it_model (inversion_trainer w)) eids emask)
    as [fe|e] eqn:Hfe.
  destruct (d !! "input_ids"%string) as [ids|] eqn:Hi.
  destruct (d !! "attention_mask"%string) as [mask|] eqn:Ha.
  destruct (corrector_forward (self_model self) fe ids mask) as [new|e] eqn:Hnew.
  { by exists d, eids, emask, ids, mask, fe, new. }
  all: exfalso; revert Hr; unfold generate; unfold_ops;
    repeat (progress (cbn_ops; rewrite ?Hd, ?He, ?Hm, ?Hi, ?Ha, ?Hfe, ?Hnew));
    discriminate.
Qed.

(** The calls of [compute_loss] up to the correction model, when the
    embedding, the generation and the transform go through. *)
Lemma compute_loss_calls self model inputs ro (w : World) (d : gmap string Value)
    ids B L eids emask fe gen h :
  heap w !! inputs = Some d ->
  d !! "input_ids"%string = Some ids ->
  value_shape ids = [B; L] ->
  d !! "embedder_input_ids"%string = Some eids ->
  d !! "embedder_attention_mask"%string = Some emask ->
  call_embedding_model (it_model (inversion_trainer w)) eids emask = Ok fe ->
  inversion_model_generate (it_model (inversion_trainer w))
    (generate_inputs (fake_embedder_tensor B L) (fake_embedder_tensor B L) fe)
    the_generation_kwargs = Ok gen ->
  shift_and_append_eos gen B
    (eos_token_id (im_embedder_tokenizer (it_model (inversion_trainer w)))) = Ok h ->
  exists rest,
    trace (compute_loss self model inputs ro w).2
    = trace w
      ++ [CallEmbeddingModel false eids emask;
          CallModelGenerate (grad_enabled w)
            (generate_inputs (fake_embedder_tensor B L) (fake_embedder_tensor B L) fe)
            the_generation_kwargs;
          CallCorrector (grad_enabled w) fe (VLong h)
            (VBool (tensor_ne h (pad_token_id (self_embedder_tokenizer self))))]
      ++ rest
    /\ Forall (forward_on_fakes (grad_enabled w) B L) rest.
Proof.
  intros Hd Hi Hsh He Hm Hfe Hgen Hh.
  unfold compute_loss. unfold_ops.
  repeat (progress (cbn_ops; rewrite ?Hd, ?Hi, ?Hsh, ?He, ?Hm, ?Hfe, ?Hgen, ?Hh)).
  cbn [unpack2].
  repeat (progress (cbn_ops; rewrite ?Hd, ?Hi, ?Hsh, ?He, ?Hm, ?Hfe, ?Hgen, ?Hh)).
  repeat (case_match; simplify_eq); cbn_ops.
  all: first
    [ exists []; split; [rewrite <- ?app_assoc; reflexivity | constructor]
    | eexists [_]; split;
      [ rewrite <- ?app_assoc; reflexivity
      | repeat constructor; unfold forward_on_fakes; eauto ] ].
Qed.

Lemma compute_loss_reads_shape_only self model inputs ro (w1 w2 : World)
    (d1 d2 : gmap string Value) ids1 ids2 :
  grad_enabled w1 = grad_enabled w2 ->
  inversion_trainer w1 = inversion_trainer w2 ->
  heap w1 !! inputs = Some d1 ->
  heap w2 !! inputs = Some d2 ->
  d1 !! "embedder_input_ids"%string = d2 !! "embedder_input_ids"%string ->
  d1 !! "embedder_attention_mask"%string = d2 !! "embedder_attention_mask"%string ->
  d1 !! "labels"%string = d2 !! "labels"%string ->
  d1 !! "input_ids"%string = Some ids1 ->
  d2 !! "input_ids"%string = Some ids2 ->
  value_shape ids1 = value_shape ids2 ->
  (compute_loss self model inputs ro w1).1 = (compute_loss self model inputs ro w2).1
  /\ exists new,
       trace (compute_loss self model inputs ro w1).2 = trace w1 ++ new
       /\ trace (compute_loss self model inputs ro w2).2 = trace w2 ++ new.
Proof.
  intros Hg Hit Hd1 Hd2 He Hm Hl Hi1 Hi2 Hsh.
  destruct w1 as [g1 h1 it1 tr1], w2 as [g2 h2 it2 tr2].
  cbn in Hg, Hit, Hd1, Hd2. subst g2 it2.
  unfold compute_loss. unfold_ops.
  repeat (repeat (progress (cbn_ops; rewrite ?Hd1, ?Hd2, ?Hi1, ?Hi2, ?Hsh, ?He, ?Hm, ?Hl));
          try (case_match; cbn_ops_all; simplify_eq)).
  all: split; [reflexivity|].
  all: first
      [ exists []; split; symmetry; apply app_nil_r
      | eexists; split; rewrite <- ?app_assoc; reflexivity ].
Qed.

Lemma CorrectorTrainer_init_run model args w :
  let it := inversion_trainer w in
  let it' :=
    mkInversionTrainer
      (set_use_frozen_embeddings_as_input true (freeze_params (it_model it)))
      (it_args it) (it_train_dataset it) (it_eval_dataset it) (it_data_collator it) in
  let self :=
    mkCorrectorTrainer model args (it_train_dataset it) (it_eval_dataset it)
      (it_data_collator it) (im_tokenizer (it_model it))
      (im_embedder_tokenizer (it_model it)) in
  CorrectorTrainer_init model args w
  = (if bool_decide (fp16 args = fp16 (it_args it))
        && bool_decide (bf16 args = bf16 (it_args it))
     then Ok self else Raise AssertionError,
     mkWorld (grad_enabled w) (heap w) it' (trace w ++ [CallBaseTrainerInit model args])).
Proof.
  unfold CorrectorTrainer_init. unfold_ops. cbn.
  destruct (bool_decide (fp16 args = _)), (bool_decide (bf16 args = _)); reflexivity.
Qed.

Lemma frozen_after_init model args w :
  frozen_invariant (CorrectorTrainer_init model args w).2.
Proof.
  rewrite CorrectorTrainer_init_run. split; cbn.
  - apply Forall_fmap, Forall_forall. reflexivity.
  - reflexivity.
Qed.

Lemma prediction_step_run self model inputs b ik w d :
  heap w !! inputs = Some d ->
  let inputs' := fresh (dom (heap w)) in
  let out :=
    compute_loss self model inputs' false
      (mkWorld false (<[inputs' := to_device (device (self_args self)) <$> d]> (heap w))
               (inversion_trainer w) (trace w)) in
  prediction_step self model inputs b ik w
  = (match out.1 with
     | Ok loss => Ok (loss, None, None)
     | Raise e => Raise e
     end,
     set_grad (grad_enabled w) out.2).
Proof.
  intros Hd inputs' out. unfold prediction_step, dict_to_device, with_no_grad.
  unfold mbind at 1 2. unfold M_bind at 1 2. rewrite Hd.
  subst out inputs'. unfold set_heap, set_grad.
  cbn [grad_enabled heap inversion_trainer trace].
  destruct (compute_loss _ _ _ _ _) as [[loss|e] w']; reflexivity.
Qed.

Lemma prediction_step_dangling self model inputs b ik w :
  heap w !! inputs = None ->
  prediction_step self model inputs b ik w = (Raise Dangling, w).
Proof.
  intros Hd. unfold prediction_step, dict_to_device.
  unfold mbind at 1. unfold M_bind at 1. rewrite Hd. reflexivity.
Qed.

(** [prediction_step] leaves the inversion trainer, the gradient mode
    and every dictionary that existed as they were, and all its calls
    run with gradients off. *)
Lemma prediction_step_frame self model inputs b ik w :
  let w' := (prediction_step self model inputs b ik w).2 in
  inversion_trainer w' = inversion_trainer w
  /\ grad_enabled w' = grad_enabled w
  /\ (forall l d, heap w !! l = Some d -> heap w' !! l = Some d)
  /\ exists new, trace w' = trace w ++ new
                 /\ Forall (fun c => call_grad c = Some false) new.
Proof.
  destruct (heap w !! inputs) as [d|] eqn:Hd.
  - rewrite (prediction_step_run _ _ _ _ _ _ d Hd). cbn zeta.
    match goal with |- context [compute_loss ?s ?m ?l ?r ?w0] =>
      pose proof (compute_loss_frame s m l r w0) as (Hheap & Hit & _ & new & Htr & Hnew)
    end.
    cbn [snd]. unfold set_grad. cbn [inversion_trainer grad_enabled heap trace] in *.
    split; [exact Hit|]. split; [reflexivity|]. split.
    + intros l d' Hl. rewrite Hheap. rewrite lookup_insert_ne; [exact Hl|].
      intros <-. apply (is_fresh (dom (heap w))). apply elem_of_dom. by eexists.
    + exists new. split; [exact Htr|].
      eapply Forall_impl; [exact Hnew|]. intros c [Hc|Hc]; exact Hc.
  - rewrite prediction_step_dangling by exact Hd. cbn.
    split; [reflexivity|]. split; [reflexivity|]. split; [auto|].
    exists []. split; [symmetry; apply app_nil_r | constructor].
Qed.

End Run.

(** ** The claims *)

Section Claims.
Context `{Collaborators}.

(** C2 (as it holds): when [compute_loss] is called on a batch whose
    [input_ids] has shape (B, L), the fake embedder input ids and
    attention mask it passes to the inversion model's [generate] and
    forward have shape (B, L) and hold only ones; and if that generation
    returns token ids of shape (B, L) with L at least 1, and the
    embedder tokenizer's eos id is a value of [torch.long], the
    [hypothesis_input_ids] passed to the correction model is the
    generation with its first column dropped and the eos id appended to
    every row, of shape (B, L), with eos in the last column of every
    row. *)
Theorem C2_fake_inputs_and_hypothesis self model inputs ro (w : World)
    (d : gmap string Value) ids B L eids emask fe gen :
  heap w !! inputs = Some d ->
  d !! "input_ids"%string = Some ids ->
  value_shape ids = [B; L] ->
  d !! "embedder_input_ids"%string = Some eids ->
  d !! "embedder_attention_mask"%string = Some emask ->
  call_embedding_model (it_model (inversion_trainer w)) eids emask = Ok fe ->
  inversion_model_generate (it_model (inversion_trainer w))
    (generate_inputs (fake_embedder_tensor B L) (fake_embedder_tensor B L) fe)
    the_generation_kwargs = Ok gen ->
  shape gen = [B; L] ->
  well_formed gen ->
  (1 <= L)%nat ->
  in_int64 (eos_token_id (im_embedder_tokenizer (it_model (inversion_trainer w)))) ->
  let eos := eos_token_id (im_embedder_tokenizer (it_model (inversion_trainer w))) in
  let fake := fake_embedder_tensor B L in
  (shape fake = [B; L] /\ well_formed fake /\ Forall (fun x => x = fone) (data fake))
  /\ exists h rest,
       shift_and_append_eos gen B eos = Ok h
       /\ rows h = (fun r => drop 1 r ++ [eos]) <$> rows gen
       /\ shape h = [B; L]
       /\ well_formed h
       /\ Forall (fun r => last r = Some eos) (rows h)
       /\ trace (compute_loss self model inputs ro w).2
          = trace w
            ++ [CallEmbeddingModel false eids emask;
                CallModelGenerate (grad_enabled w) (generate_inputs fake fake fe)
                  the_generation_kwargs;
                CallCorrector (grad_enabled w) fe (VLong h)
                  (VBool (tensor_ne h (pad_token_id (self_embedder_tokenizer self))))]
            ++ rest
       /\ Forall (forward_on_fakes (grad_enabled w) B L) rest.
Proof.
  intros Hd Hi Hsh He Hm Hfe Hgen Hgsh Hwf HL Heos eos fake.
  split; [apply fake_embedder_tensor_ones|].
  destruct (shift_and_append_eos_rows gen B L eos Hgsh Hwf) as (h & Hh & Hhsh & Hrows & Hhwf).
  rewrite (wrap_int64_id eos Heos) in Hrows.
  destruct (compute_loss_calls self model inputs ro w d ids B L eids emask fe gen h
              Hd Hi Hsh He Hm Hfe Hgen Hh) as (rest & Htr & Hrest).
  exists h, rest. split; [exact Hh|]. split; [exact Hrows|].
  split; [rewrite Hhsh; do 2 f_equal; lia|]. split; [exact Hhwf|].
  split; [|split; [exact Htr | exact Hrest]].
  rewrite Hrows. apply Forall_fmap, Forall_forall. intros r _. apply last_snoc.
Qed.

(** C3: [generate] returns exactly what the inversion trainer's own
    [generate] returns on the batch whose [frozen_embeddings] entry is
    the correction model's output (computed from the frozen embedding
    and the batch's [input_ids] and [attention_mask]); that batch is the
    argument of the delegated call.  Conversely a call that returns a
    value has gone through the embedding and the correction and returns
    the delegate's result. *)
Theorem C3_generate_delegates_with_corrected_embedding self inputs kw (w : World) :
  (forall (d : gmap string Value) eids emask ids mask fe new,
     heap w !! inputs = Some d ->
     d !! "embedder_input_ids"%string = Some eids ->
     d !! "embedder_attention_mask"%string = Some emask ->
     d !! "input_ids"%string = Some ids ->
     d !! "attention_mask"%string = Some mask ->
     call_embedding_model (it_model (inversion_trainer w)) eids emask = Ok fe ->
     corrector_forward (self_model self) fe ids mask = Ok new ->
     let d' := <["frozen_embeddings"%string := VFloat new]> d in
     (generate self inputs kw w).1
     = (inversion_trainer_generate (inversion_trainer w) d' kw).2
     /\ last (trace (generate self inputs kw w).2)
        = Some (CallTrainerGenerate (grad_enabled w) d' kw)
     /\ d' !! "frozen_embeddings"%string = Some (VFloat new))
  /\ (forall r, (generate self inputs kw w).1 = Ok r ->
      exists (d : gmap string Value) eids emask ids mask fe new,
        heap w !! inputs = Some d
        /\ d !! "embedder_input_ids"%string = Some eids
        /\ d !! "embedder_attention_mask"%string = Some emask
        /\ d !! "input_ids"%string = Some ids
        /\ d !! "attention_mask"%string = Some mask
        /\ call_embedding_model (it_model (inversion_trainer w)) eids emask = Ok fe
        /\ corrector_forward (self_model self) fe ids mask = Ok new
        /\ (inversion_trainer_generate (inversion_trainer w)
              (<["frozen_embeddings"%string := VFloat new]> d) kw).2 = Ok r).
Proof.
  split.
  - intros d eids emask ids mask fe new Hd He Hm Hi Ha Hfe Hnew d'.
    rewrite (generate_run self inputs kw w d eids emask ids mask fe new) by assumption.
    cbn [fst snd trace]. split; [reflexivity|]. split.
    + rewrite last_app. reflexivity.
    + apply lookup_insert_eq.
  - intros r Hr.
    destruct (generate_returns self inputs kw w r Hr)
      as (d & eids & emask & ids & mask & fe & new & Hd & He & Hm & Hi & Ha & Hfe & Hnew).
    exists d, eids, emask, ids, mask, fe, new.
    repeat (split; [assumption|]).
    rewrite (generate_run self inputs kw w d eids emask ids mask fe new) in Hr by assumption.
    exact Hr.
Qed.

(** C4 (as it holds): in every call to [generate] the embedding step
    and the correction step run with gradients off, the delegated call
    to the inversion trainer's [generate] runs under the gradient mode
    of the caller, and the gradient mode is afterwards what it was. *)
Theorem C4_generate_embeds_and_corrects_without_gradients self inputs kw (w : World) :
  let w' := (generate self inputs kw w).2 in
  grad_enabled w' = grad_enabled w
  /\ (exists new, trace w' = trace w ++ new
                  /\ Forall (generate_call_under (grad_enabled w)) new)
  /\ (forall (d : gmap string Value) eids emask ids mask fe new,
        heap w !! inputs = Some d ->
        d !! "embedder_input_ids"%string = Some eids ->
        d !! "embedder_attention_mask"%string = Some emask ->
        d !! "input_ids"%string = Some ids ->
        d !! "attention_mask"%string = Some mask ->
        call_embedding_model (it_model (inversion_trainer w)) eids emask = Ok fe ->
        corrector_forward (self_model self) fe ids mask = Ok new ->
        trace w'
        = trace w ++ [CallEmbeddingModel false eids emask;
                      CallCorrector false fe ids mask;
                      CallTrainerGenerate (grad_enabled w)
                        (<["frozen_embeddings"%string := VFloat new]> d) kw]).
Proof.
  destruct (generate_frame self inputs kw w) as (_ & Hg & Hnew).
  split; [exact Hg|]. split; [exact Hnew|].
  intros d eids emask ids mask fe new Hd He Hm Hi Ha Hfe Hcorr.
  rewrite (generate_run self inputs kw w d eids emask ids mask fe new) by assumption.
  reflexivity.
Qed.

(** C5 (as it holds): constructing a [CorrectorTrainer] whose [fp16] or
    [bf16] flag differs from the inversion trainer's raises an assertion
    error and returns no trainer; by then the inversion model has been
    frozen, its frozen-embeddings flag set and the base trainer
    initialized. *)
Theorem C5_precision_mismatch_aborts_after_side_effects model args (w : World) :
  fp16 args <> fp16 (it_args (inversion_trainer w))
  \/ bf16 args <> bf16 (it_args (inversion_trainer w)) ->
  let w' := (CorrectorTrainer_init model args w).2 in
  (CorrectorTrainer_init model args w).1 = Raise AssertionError
  /\ frozen_invariant w'
  /\ trace w' = trace w ++ [CallBaseTrainerInit model args]
  /\ heap w' = heap w
  /\ grad_enabled w' = grad_enabled w.
Proof.
  intros Hne w'. pose proof (frozen_after_init model args w) as Hfrozen.
  subst w'. revert Hfrozen. rewrite CorrectorTrainer_init_run. cbn [fst snd].
  intros Hfrozen. split; [|split; [exact Hfrozen|repeat split]].
  destruct Hne as [Hne|Hne].
  - rewrite (bool_decide_eq_false_2 _ Hne). reflexivity.
  - rewrite (bool_decide_eq_false_2 _ Hne), andb_false_r. reflexivity.
Qed.

(** C6: after a successful construction every parameter of the
    inversion model is non-trainable and its
    [use_frozen_embeddings_as_input] flag is true (and construction
    succeeds when the precision flags agree); [generate],
    [compute_loss] and [prediction_step] keep both. *)
Theorem C6_inversion_model_stays_frozen :
  (forall model args (w : World) self,
     (CorrectorTrainer_init model args w).1 = Ok self ->
     frozen_invariant (CorrectorTrainer_init model args w).2)
  /\ (forall model args (w : World),
        fp16 args = fp16 (it_args (inversion_trainer w)) ->
        bf16 args = bf16 (it_args (inversion_trainer w)) ->
        exists self, (CorrectorTrainer_init model args w).1 = Ok self)
  /\ (forall self model inputs kw b ik (w : World),
        frozen_invariant w ->
        frozen_invariant (generate self inputs kw w).2
        /\ frozen_invariant (compute_loss self model inputs b w).2
        /\ frozen_invariant (prediction_step self model inputs b ik w).2).
Proof.
  split; [intros model args w self _; apply frozen_after_init|]. split.
  - intros model args w Hfp Hbf. rewrite CorrectorTrainer_init_run. cbn [fst].
    rewrite !bool_decide_eq_true_2 by assumption. eexists. reflexivity.
  - intros self model inputs kw b ik w Hinv. unfold frozen_invariant in *.
    destruct (generate_frame self inputs kw w) as (-> & _).
    destruct (compute_loss_frame self model inputs b w) as (_ & -> & _).
    destruct (prediction_step_frame self model inputs b ik w) as (-> & _).
    auto.
Qed.

(** C7 (as it holds): [generate] writes the correction model's output
    under [frozen_embeddings] into the caller's dictionary before it
    delegates, and the entry is there after the call when the delegate
    leaves it alone; [compute_loss] writes to no dictionary. *)
Theorem C7_generate_writes_the_batch_compute_loss_does_not :
  (forall self inputs kw (w : World) (d : gmap string Value) eids emask ids mask fe new,
     heap w !! inputs = Some d ->
     d !! "embedder_input_ids"%string = Some eids ->
     d !! "embedder_attention_mask"%string = Some emask ->
     d !! "input_ids"%string = Some ids ->
     d !! "attention_mask"%string = Some mask ->
     call_embedding_model (it_model (inversion_trainer w)) eids emask = Ok fe ->
     corrector_forward (self_model self) fe ids mask = Ok new ->
     let d' := <["frozen_embeddings"%string := VFloat new]> d in
     let out := inversion_trainer_generate (inversion_trainer w) d' kw in
     let w' := (generate self inputs kw w).2 in
     In (CallTrainerGenerate (grad_enabled w) d' kw) (trace w')
     /\ heap w' !! inputs = Some out.1
     /\ (out.1 !! "frozen_embeddings"%string = d' !! "frozen_embeddings"%string ->
         heap w' !! inputs ≫= (.!! "frozen_embeddings"%string) = Some (VFloat new)))
  /\ (forall self model inputs ro (w : World),
        heap (compute_loss self model inputs ro w).2 = heap w).
Proof.
  split.
  - intros self inputs kw w d eids emask ids mask fe new Hd He Hm Hi Ha Hfe Hnew d' out w'.
    subst w'.
    rewrite (generate_run self inputs kw w d eids emask ids mask fe new) by assumption.
    cbn [snd trace heap]. fold d'. fold out. split.
    + apply in_or_app. right. cbn. auto.
    + rewrite lookup_insert_eq. split; [reflexivity|].
      intros Hkeep. cbn. rewrite Hkeep. apply lookup_insert_eq.
  - intros self model inputs ro w.
    by destruct (compute_loss_frame self model inputs ro w) as (-> & _).
Qed.

(** C9: whatever [prediction_loss_only] and [ignore_keys] are,
    [prediction_step] returns a triple whose second and third components
    are [None] and whose first is the loss [compute_loss] gives with
    gradients off; all its calls run with gradients off. *)
Theorem C9_prediction_step_returns_the_loss_alone self model inputs b ik (w : World) :
  let w' := (prediction_step self model inputs b ik w).2 in
  (forall b' ik',
     prediction_step self model inputs b' ik' w = prediction_step self model inputs b ik w)
  /\ (forall r, (prediction_step self model inputs b ik w).1 = Ok r ->
        r.1.2 = None /\ r.2 = None)
  /\ (forall d, heap w !! inputs = Some d ->
        let inputs' := fresh (dom (heap w)) in
        let out :=
          compute_loss self model inputs' false
            (mkWorld false
               (<[inputs' := to_device (device (self_args self)) <$> d]> (heap w))
               (inversion_trainer w) (trace w)) in
        (prediction_step self model inputs b ik w).1
        = match out.1 with
          | Ok loss => Ok (loss, None, None)
          | Raise e => Raise e
          end)
  /\ grad_enabled w' = grad_enabled w
  /\ (exists new, trace w' = trace w ++ new
                  /\ Forall (fun c => call_grad c = Some false) new).
Proof.
  intros w'. split; [reflexivity|]. split; [|split].
  - intros r Hr. destruct (heap w !! inputs) as [d|] eqn:Hd.
    + rewrite (prediction_step_run _ _ _ _ _ _ d Hd) in Hr. cbn [fst] in Hr.
      destruct (compute_loss _ _ _ _ _).1; [|discriminate].
      injection Hr as <-. split; reflexivity.
    + rewrite prediction_step_dangling in Hr by exact Hd. discriminate.
  - intros d Hd inputs' out. rewrite (prediction_step_run _ _ _ _ _ _ d Hd). reflexivity.
  - destruct (prediction_step_frame self model inputs b ik w) as (_ & Hg & _ & Hnew).
    split; assumption.
Qed.

(** C10: with the models as functions of their arguments, two batches
    that agree on [embedder_input_ids], [embedder_attention_mask] and
    [labels] and whose [input_ids] have the same shape (B, L) give the
    same result of [compute_loss] (the same loss, or the same
    exception) and the same calls. *)
Theorem C10_compute_loss_reads_only_the_shape_of_input_ids
    self model inputs ro (w1 w2 : World) (d1 d2 : gmap string Value) ids1 ids2 B L :
  grad_enabled w1 = grad_enabled w2 ->
  inversion_trainer w1 = inversion_trainer w2 ->
  heap w1 !! inputs = Some d1 ->
  heap w2 !! inputs = Some d2 ->
  d1 !! "embedder_input_ids"%string = d2 !! "embedder_input_ids"%string ->
  d1 !! "embedder_attention_mask"%string = d2 !! "embedder_attention_mask"%string ->
  d1 !! "labels"%string = d2 !! "labels"%string ->
  d1 !! "input_ids"%string = Some ids1 ->
  d2 !! "input_ids"%string = Some ids2 ->
  value_shape ids1 = [B; L] ->
  value_shape ids2 = [B; L] ->
  (compute_loss self model inputs ro w1).1 = (compute_loss self model inputs ro w2).1
  /\ exists new,
       trace (compute_loss self model inputs ro w1).2 = trace w1 ++ new
       /\ trace (compute_loss self model inputs ro w2).2 = trace w2 ++ new.
Proof.
  intros Hg Hit Hd1 Hd2 He Hm Hl Hi1 Hi2 Hs1 Hs2.
  apply (compute_loss_reads_shape_only self model inputs ro w1 w2 d1 d2 ids1 ids2);
    try assumption.
  congruence.
Qed.

End Claims.

End CorrectorProofs.

(** * The properties on the concrete instance *)

Module CorrectorExamples.

Import Corrector Demo CorrectorProofs.

Lemma C2_fake_inputs_and_hypothesis_witness :
  exists h,
    shift_and_append_eos demo_generation 2 1 = Ok h
    /\ shape h = [2; 3]%nat
    /\ Forall (fun r => last r = Some 1) (rows h)
    /\ exists rest,
         trace (compute_loss demo_self 4%nat 0%nat false (demo_world demo_batch)).2
         = [] ++ [CallEmbeddingModel false demo_embedder_ids demo_ones;
                  CallModelGenerate true
                    (generate_inputs (fake_embedder_tensor 2 3) (fake_embedder_tensor 2 3)
                                     demo_embedding)
                    the_generation_kwargs;
                  CallCorrector true demo_embedding (VLong h)
                    (VBool (tensor_ne h 0))] ++ rest.
Proof.
  destruct (C2_fake_inputs_and_hypothesis demo_self 4%nat 0%nat false
              (demo_world demo_batch) demo_batch demo_ids 2 3
              demo_embedder_ids demo_ones demo_embedding demo_generation)
    as (_ & h & rest & Hh & _ & Hsh & _ & Hlast & Htr & _);
    [reflexivity .. | lia | unfold in_int64; cbn; lia |].
  exists h. split; [exact Hh|]. split; [exact Hsh|]. split; [exact Hlast|].
  exists rest. exact Htr.
Defined.

(** C2, as stated, fails on sequences of no tokens: for [input_ids] of
    shape (1, 0) and a generation of shape (1, 0), the hypothesis handed
    to the correction model has shape (1, 1). *)
Lemma C2_empty_sequence_grows :
  empty_batch !! "input_ids"%string = Some (VLong (mkTensor [1; 0]%nat []))
  /\ inversion_model_generate (it_model demo_inversion_trainer)
       (generate_inputs (fake_embedder_tensor 1 0) (fake_embedder_tensor 1 0)
                        (mkTensor [1; 1]%nat [0]))
       the_generation_kwargs = Ok (mkTensor [1; 0]%nat [])
  /\ well_formed (mkTensor [1; 0]%nat ([] : list Z))
  /\ trace (compute_loss demo_self 4%nat 0%nat false (demo_world empty_batch)).2 !! 2%nat
     = Some (CallCorrector true (mkTensor [1; 1]%nat [0])
               (VLong (mkTensor [1; 1]%nat [1]))
               (VBool (mkTensor [1; 1]%nat [true])))
  /\ shape (mkTensor [1; 1]%nat [1]) <> [1; 0]%nat.
Proof.
  split; [reflexivity|]. split; [reflexivity|]. split; [reflexivity|].
  split; [vm_compute; reflexivity | discriminate].
Qed.

(** C2, as stated, also fails for an eos id that [torch.long] cannot
    hold: the column appended for the id 2^63 holds -2^63. *)
Lemma C2_eos_outside_int64_wraps :
  shift_and_append_eos demo_generation 2 (2 ^ 63)
  = Ok (mkTensor [2; 3]%nat [11; 12; - 2 ^ 63; 14; 15; - 2 ^ 63])
  /\ - 2 ^ 63 <> 2 ^ 63.
Proof. split; [vm_compute; reflexivity | discriminate]. Qed.

Lemma C3_generate_delegates_with_corrected_embedding_witness :
  (generate demo_self 0%nat ∅ (demo_world demo_batch)).1
  = (inversion_trainer_generate demo_inversion_trainer
       (<["frozen_embeddings"%string := VFloat demo_corrected]> demo_batch) ∅).2
  /\ last (trace (generate demo_self 0%nat ∅ (demo_world demo_batch)).2)
     = Some (CallTrainerGenerate true
               (<["frozen_embeddings"%string := VFloat demo_corrected]> demo_batch) ∅)
  /\ <["frozen_embeddings"%string := VFloat demo_corrected]> demo_batch
       !! "frozen_embeddings"%string = Some (VFloat demo_corrected).
Proof.
  destruct (C3_generate_delegates_with_corrected_embedding demo_self 0%nat ∅
              (demo_world demo_batch)) as [Hrun _].
  apply (Hrun demo_batch demo_embedder_ids demo_ones demo_ids demo_ones
              demo_embedding demo_corrected); reflexivity.
Defined.

Lemma C4_generate_embeds_and_corrects_without_gradients_witness :
  trace (generate demo_self 0%nat ∅ (demo_world demo_batch)).2
  = [] ++ [CallEmbeddingModel false demo_embedder_ids demo_ones;
           CallCorrector false demo_embedding demo_ids demo_ones;
           CallTrainerGenerate true
             (<["frozen_embeddings"%string := VFloat demo_corrected]> demo_batch) ∅].
Proof.
  destruct (C4_generate_embeds_and_corrects_without_gradients demo_self 0%nat ∅
              (demo_world demo_batch)) as (_ & _ & Hrun).
  apply (Hrun demo_batch demo_embedder_ids demo_ones demo_ids demo_ones
              demo_embedding demo_corrected); reflexivity.
Defined.

(** C4, as stated, fails: called in training mode, [generate] makes the
    delegated call to the inversion trainer with gradients on, outside
    the no-gradient block. *)
Lemma C4_delegated_call_runs_with_gradients_on :
  grad_enabled (demo_world demo_batch) = true
  /\ call_grad <$> trace (generate demo_self 0%nat ∅ (demo_world demo_batch)).2
     = [Some false; Some false; Some true]
  /\ last (trace (generate demo_self 0%nat ∅ (demo_world demo_batch)).2)
     = Some (CallTrainerGenerate true
               (<["frozen_embeddings"%string := VFloat demo_corrected]> demo_batch) ∅).
Proof.
  split; [reflexivity|]. split; vm_compute; reflexivity.
Qed.

Lemma C5_precision_mismatch_aborts_after_side_effects_witness :
  let w := demo_world demo_batch in
  let w' := (CorrectorTrainer_init 4%nat (mkArgs false true "cuda") w).2 in
  (CorrectorTrainer_init 4%nat (mkArgs false true "cuda") w).1 = Raise AssertionError
  /\ frozen_invariant w'
  /\ trace w' = trace w ++ [CallBaseTrainerInit 4%nat (mkArgs false true "cuda")]
  /\ heap w' = heap w
  /\ grad_enabled w' = grad_enabled w.
Proof.
  apply (@C5_precision_mismatch_aborts_after_side_effects demo_objects
           4%nat (mkArgs false true "cuda") (demo_world demo_batch)).
  left. cbn. discriminate.
Defined.

(** C5, as stated, fails: when the assertion on the precision flags
    fires, the inversion model, trainable before, is already frozen,
    its flag is already set, and the base trainer is already
    initialized. *)
Lemma C5_failed_construction_has_changed_the_model :
  let w := demo_world demo_batch in
  let r := CorrectorTrainer_init 4%nat (mkArgs false true "cuda") w in
  r.1 = Raise AssertionError
  /\ requires_grad <$> parameters (it_model (inversion_trainer w)) = [true; true]
  /\ requires_grad <$> parameters (it_model (inversion_trainer r.2)) = [false; false]
  /\ use_frozen_embeddings_as_input (it_model (inversion_trainer w)) = false
  /\ use_frozen_embeddings_as_input (it_model (inversion_trainer r.2)) = true
  /\ trace w = []
  /\ trace r.2 = [CallBaseTrainerInit 4%nat (mkArgs false true "cuda")].
Proof. repeat split. Qed.

Lemma C6_inversion_model_stays_frozen_witness :
  let w := (CorrectorTrainer_init 4%nat (mkArgs true false "cuda") (demo_world demo_batch)).2 in
  frozen_invariant w
  /\ frozen_invariant (generate demo_self 0%nat ∅ w).2
  /\ frozen_invariant (compute_loss demo_self 4%nat 0%nat false w).2
  /\ frozen_invariant (prediction_step demo_self 4%nat 0%nat false None w).2.
Proof.
  destruct (@C6_inversion_model_stays_frozen demo_objects demo_collaborators)
    as (Hinit & _ & Hkeep).
  assert (Hw : frozen_invariant
                 (CorrectorTrainer_init 4%nat (mkArgs true false "cuda")
                    (demo_world demo_batch)).2).
  { apply (Hinit 4%nat (mkArgs true false "cuda") (demo_world demo_batch) demo_self).
    reflexivity. }
  split; [exact Hw|]. apply Hkeep. exact Hw.
Defined.

Lemma C7_generate_writes_the_batch_compute_loss_does_not_witness :
  heap (generate demo_self 0%nat ∅ (demo_world demo_batch)).2 !! 0%nat
    ≫= (.!! "frozen_embeddings"%string) = Some (VFloat demo_corrected).
Proof.
  destruct (@C7_generate_writes_the_batch_compute_loss_does_not
              demo_objects demo_collaborators) as [Hgen _].
  destruct (Hgen demo_self 0%nat ∅ (demo_world demo_batch) demo_batch
              demo_embedder_ids demo_ones demo_ids demo_ones demo_embedding demo_corrected)
    as (_ & _ & Hkeep); [reflexivity ..|].
  apply Hkeep. reflexivity.
Defined.

(** C7, as stated, fails for [compute_loss]: it returns a loss and the
    caller's batch has no [frozen_embeddings] entry afterwards. *)
Lemma C7_compute_loss_leaves_the_batch_alone :
  let r := compute_loss demo_self 4%nat 0%nat false (demo_world demo_batch) in
  r.1 = Ok (mkTensor [] [89])
  /\ heap r.2 !! 0%nat = Some demo_batch
  /\ demo_batch !! "frozen_embeddings"%string = None.
Proof. split; [|split]; vm_compute; reflexivity. Qed.

Lemma C9_prediction_step_returns_the_loss_alone_witness :
  (prediction_step demo_self 4%nat 0%nat true None (demo_world demo_batch)).1
  = Ok (mkTensor [] [89], None, None).
Proof.
  destruct (C9_prediction_step_returns_the_loss_alone demo_self 4%nat 0%nat true None
              (demo_world demo_batch)) as (_ & _ & Hrun & _).
  rewrite (Hrun demo_batch) by reflexivity. vm_compute. reflexivity.
Defined.

Lemma C10_compute_loss_reads_only_the_shape_of_input_ids_witness :
  (compute_loss demo_self 4%nat 0%nat false (demo_world demo_batch)).1
  = (compute_loss demo_self 4%nat 0%nat false (demo_world demo_batch_other_ids)).1.
Proof.
  apply (C10_compute_loss_reads_only_the_shape_of_input_ids demo_self 4%nat 0%nat false
           (demo_world demo_batch) (demo_world demo_batch_other_ids)
           demo_batch demo_batch_other_ids demo_ids
           (VLong (mkTensor [2; 3]%nat [40; 41; 42; 43; 44; 45])) 2 3);
    reflexivity.
Defined.

End CorrectorExamples.

(** * Further properties of the launcher *)

Module LauncherExtras.

Import Launcher LauncherProofs.

(** ** Strings *)

Lemma replace_newlines_app s t :
  replace_newlines (s +:+ t) = replace_newlines s +:+ replace_newlines t.
Proof. induction s as [|c s IH]; simpl; [reflexivity|]. by rewrite IH. Qed.

Lemma replace_newlines_no_newline s : occurs newline (replace_newlines s) = false.
Proof.
  induction s as [|c s IH]; cbn; [reflexivity|]. rewrite IH, orb_false_r.
  destruct (Ascii.eqb c newline) eqn:Hc; [reflexivity | exact Hc].
Qed.

Lemma replace_newlines_id s : occurs newline s = false -> replace_newlines s = s.
Proof.
  induction s as [|c s IH]; cbn; [reflexivity|]. intros Hs.
  apply orb_false_iff in Hs as [Hc Hs]. by rewrite Hc, IH.
Qed.

Lemma solid_uint d : solid (NilEmpty.string_of_uint d) = true.
Proof. induction d; cbn; try reflexivity; exact IHd. Qed.

Lemma solid_digits d :
  d <> Decimal.Nil ->
  solid (NilZero.string_of_uint d) = true /\ NilZero.string_of_uint d <> EmptyString.
Proof.
  intros Hd. pose proof (solid_uint d) as Hs.
  destruct d; try contradiction; (split; [exact Hs | discriminate]).
Qed.

Lemma solid_py_str n : solid (py_str n) = true /\ py_str n <> EmptyString.
Proof.
  unfold py_str. destruct n as [|p|p]; unfold Z.to_int, NilZero.string_of_int.
  - split; [reflexivity | discriminate].
  - apply solid_digits, Unsigned.to_uint_nonnil.
  - destruct (solid_digits (Pos.to_uint p) (Unsigned.to_uint_nonnil p)) as [Hs _].
    split; [|discriminate]. simpl. exact Hs.
Qed.

Lemma solid_no_newline s : solid s = true -> occurs newline s = false.
Proof.
  induction s as [|c s IH]; cbn; [reflexivity|]. intros Hs.
  apply andb_true_iff in Hs as [Hc Hs]. rewrite (IH Hs), orb_false_r.
  destruct (Ascii.eqb c newline) eqn:Heq; [|reflexivity].
  apply Ascii.eqb_eq in Heq. subst c. discriminate.
Qed.

Lemma rstrip_solid s : solid s = true -> rstrip s = s.
Proof.
  induction s as [|c s IH]; cbn; [reflexivity|]. intros Hs.
  apply andb_true_iff in Hs as [Hc Hs]. rewrite (IH Hs).
  apply negb_true_iff in Hc. rewrite Hc. by destruct s.
Qed.

Lemma rstrip_app_nonempty s t : rstrip t <> EmptyString -> rstrip (s +:+ t) = s +:+ rstrip t.
Proof.
  intros Ht. induction s as [|c s IH]; simpl; [reflexivity|].
  rewrite IH. destruct (s +:+ rstrip t) eqn:Hst.
  - destruct s; simpl in Hst; [contradiction | discriminate].
  - by rewrite <- Hst.
Qed.

Lemma rstrip_app_space s : rstrip (s +:+ " ") = rstrip s.
Proof. induction s as [|c s IH]; simpl; [reflexivity|]. by rewrite IH. Qed.

Lemma append_assoc s t u : (s +:+ t) +:+ u = s +:+ (t +:+ u).
Proof.
  induction s as [|c s IH]; [reflexivity|].
  change (String c ((s +:+ t) +:+ u) = String c (s +:+ (t +:+ u))). by rewrite IH.
Qed.

Lemma occurs_app c s t : occurs c (s +:+ t) = occurs c s || occurs c t.
Proof. induction s as [|c' s IH]; simpl; [reflexivity|]. by rewrite IH, orb_assoc. Qed.

Lemma collapsed_format start_idx num_samples :
  replace_newlines (BASE_PYTHON_CMD_format start_idx num_samples)
  = " " +:+ "python precompute_train_hypotheses.py --start_idx " +:+ py_str start_idx
        +:+ " --num_samples " +:+ py_str num_samples +:+ " ".
Proof.
  unfold BASE_PYTHON_CMD_format. rewrite !replace_newlines_app.
  rewrite (replace_newlines_id (py_str start_idx))
    by (apply solid_no_newline, solid_py_str).
  rewrite (replace_newlines_id (py_str num_samples))
    by (apply solid_no_newline, solid_py_str).
  reflexivity.
Qed.

(** X2: for any start index and sample count of at most 4300 digits
    (the integers CPython prints), the command after [cmd.replace] has
    no newline, and what [run_cmd] prints after [cmd.strip()] is exactly
    the one-line command with the two numbers in decimal. *)
Theorem X2_command_text (start_idx num_samples : Z) :
  Z.abs start_idx < 10 ^ 4300 ->
  Z.abs num_samples < 10 ^ 4300 ->
  let cmd := replace_newlines (BASE_PYTHON_CMD_format start_idx num_samples) in
  occurs newline cmd = false
  /\ strip cmd
     = "python precompute_train_hypotheses.py --start_idx " +:+ py_str start_idx
         +:+ " --num_samples " +:+ py_str num_samples
  /\ "cmd >> " +:+ strip cmd = cmd_line start_idx num_samples
  /\ occurs newline (strip cmd) = false.
Proof.
  intros _ _ cmd.
  assert (Hstrip : strip cmd
     = "python precompute_train_hypotheses.py --start_idx " +:+ py_str start_idx
         +:+ " --num_samples " +:+ py_str num_samples).
  { subst cmd. rewrite collapsed_format. unfold strip.
    destruct (solid_py_str num_samples) as [Hsolid Hne].
    set (head := ("python precompute_train_hypotheses.py --start_idx "
                    +:+ py_str start_idx +:+ " --num_samples ")%string).
    transitivity (rstrip ((head +:+ py_str num_samples) +:+ " ")).
    { f_equal. subst head. rewrite !append_assoc. reflexivity. }
    rewrite rstrip_app_space, rstrip_app_nonempty;
      rewrite rstrip_solid by exact Hsolid; [|exact Hne].
    subst head. rewrite !append_assoc. reflexivity. }
  split; [apply replace_newlines_no_newline|]. split; [exact Hstrip|].
  split; [rewrite Hstrip; reflexivity|].
  rewrite Hstrip, !occurs_app.
  rewrite !(solid_no_newline (py_str _)) by apply solid_py_str. reflexivity.
Qed.

Lemma X2_command_text_witness :
  let cmd := replace_newlines (BASE_PYTHON_CMD_format 820632 273544) in
  occurs newline cmd = false
  /\ strip cmd
     = "python precompute_train_hypotheses.py --start_idx " +:+ py_str 820632
         +:+ " --num_samples " +:+ py_str 273544
  /\ "cmd >> " +:+ strip cmd = cmd_line 820632 273544
  /\ occurs newline (strip cmd) = false.
Proof.
  apply (X2_command_text 820632 273544).
  - apply Z.lt_le_trans with (10 ^ 6); [reflexivity|]. apply Z.pow_le_mono_r; lia.
  - apply Z.lt_le_trans with (10 ^ 6); [reflexivity|]. apply Z.pow_le_mono_r; lia.
Defined.

(** X1: every dataset row below [MSMARCO_LENGTH] lies in exactly one of
    the 32 shards; every shard starts inside the dataset; and the
    shards ask for 4 rows past its end, no more. *)
Theorem X1_every_row_in_exactly_one_shard :
  (forall x, 0 <= x < MSMARCO_LENGTH ->
     exists i, 0 <= i < N_SHARDS /\ in_shard i x
               /\ forall j, 0 <= j < N_SHARDS -> in_shard j x -> j = i)
  /\ (forall i, 0 <= i < N_SHARDS -> 0 <= start_idx i < MSMARCO_LENGTH)
  /\ (forall i x, 0 <= i < N_SHARDS -> in_shard i x ->
        0 <= x < MSMARCO_LENGTH + 4)
  /\ N_SHARDS * shard_length - MSMARCO_LENGTH = 4.
Proof.
  unfold in_shard, N_SHARDS, MSMARCO_LENGTH.
  split; [|split; [|split; [|reflexivity]]].
  - intros x Hx. exists (x / 273544).
    pose proof (Z.div_mod x 273544 ltac:(lia)) as Hdm.
    pose proof (Z.mod_pos_bound x 273544 ltac:(lia)) as Hmod.
    rewrite start_idx_value, shard_length_value.
    split; [|split].
    + split; [apply Z.div_pos; lia|]. apply Z.div_lt_upper_bound; lia.
    + lia.
    + intros j Hj. rewrite start_idx_value. lia.
  - intros i Hi. rewrite start_idx_value. lia.
  - intros i x Hi. rewrite start_idx_value, shard_length_value. lia.
Qed.

Lemma X1_every_row_in_exactly_one_shard_witness :
  exists i, 0 <= i < N_SHARDS /\ in_shard i 1000000
            /\ forall j, 0 <= j < N_SHARDS -> in_shard j 1000000 -> j = i.
Proof.
  destruct X1_every_row_in_exactly_one_shard as [Hcover _].
  apply Hcover. unfold MSMARCO_LENGTH. lia.
Defined.

Lemma length_append s t : String.length (s +:+ t) = (String.length s + String.length t)%nat.
Proof.
  induction s as [|c s IH]; [reflexivity|].
  change (S (String.length (s +:+ t)) = S (String.length s + String.length t)).
  by rewrite IH.
Qed.

Lemma append_inj_r s1 : forall s2 t, s1 +:+ t = s2 +:+ t -> s1 = s2.
Proof.
  induction s1 as [|c s1 IH]; intros [|c' s2] t Heq; [reflexivity| | |].
  - apply (f_equal String.length) in Heq. rewrite !length_append in Heq.
    cbn [String.length] in Heq. lia.
  - apply (f_equal String.length) in Heq. rewrite !length_append in Heq.
    cbn [String.length] in Heq. lia.
  - change (String c (s1 +:+ t) = String c' (s2 +:+ t)) in Heq.
    injection Heq as -> Heq. f_equal. by apply (IH s2 t).
Qed.

Lemma py_str_inj a b : py_str a = py_str b -> a = b.
Proof.
  unfold py_str. intros Heq.
  assert (Hnz : forall z, Z.to_int z <> Decimal.Pos Decimal.Nil
                          /\ Z.to_int z <> Decimal.Neg Decimal.Nil).
  { intros [|p|p]; cbn; split; try discriminate;
      intros [= Hp]; exact (Unsigned.to_uint_nonnil p Hp). }
  assert (Hint : Some (Z.to_int a) = Some (Z.to_int b)).
  { rewrite <- (NilZero.isi (Z.to_int a)) by apply Hnz.
    rewrite <- (NilZero.isi (Z.to_int b)) by apply Hnz. by rewrite Heq. }
  injection Hint as Hint. rewrite <- (DecimalZ.of_to a), <- (DecimalZ.of_to b).
  by rewrite Hint.
Qed.

(** X3: different shard indices give different job descriptions. *)
Theorem X3_job_descriptions_tell_shards_apart (i j : Z) :
  i <> j -> job_desc i <> job_desc j.
Proof.
  intros Hne Heq. apply Hne. unfold job_desc in Heq. cbn [join] in Heq.
  do 2 apply String.app_inj in Heq. apply append_inj_r in Heq.
  apply py_str_inj in Heq. rewrite !start_idx_value in Heq. lia.
Qed.

Lemma X3_job_descriptions_tell_shards_apart_witness : job_desc 3 <> job_desc 4.
Proof. apply (X3_job_descriptions_tell_shards_apart 3 4). lia. Defined.

Section Abort.

Variable dt_string : nat -> string.
Variable slurm_returns : Job -> bool.

Lemma loop_body_returns i tr :
  slurm_returns (shard_job dt_string i) = true ->
  loop_body true dt_string slurm_returns i tr
  = (tr ++ shard_events true dt_string i, Completed).
Proof.
  intros Hret. unfold loop_body, run_cmd, shard_events.
  change (mkJob _ _ _ _) with (shard_job dt_string i). rewrite Hret.
  by rewrite <- !app_assoc.
Qed.

Lemma loop_body_raises i tr :
  slurm_returns (shard_job dt_string i) = false ->
  loop_body true dt_string slurm_returns i tr
  = (tr ++ [Print ("job_name >> " +:+ job_name (shard_job dt_string i));
            Print ("cmd >> " +:+ strip (collapsed_cmd i));
            Submit (shard_job dt_string i)], Aborted).
Proof.
  intros Hret. unfold loop_body, run_cmd.
  change (mkJob _ _ _ _) with (shard_job dt_string i). rewrite Hret.
  by rewrite <- !app_assoc.
Qed.

Lemma for_loop_raises done : forall tr k rest,
  Forall (fun i => slurm_returns (shard_job dt_string i) = true) done ->
  slurm_returns (shard_job dt_string k) = false ->
  for_loop true dt_string slurm_returns (done ++ k :: rest) tr
  = (tr ++ concat (shard_events true dt_string <$> done)
        ++ [Print ("job_name >> " +:+ job_name (shard_job dt_string k));
            Print ("cmd >> " +:+ strip (collapsed_cmd k));
            Submit (shard_job dt_string k)], Aborted).
Proof.
  induction done as [|i done IH]; intros tr k rest Hdone Hk.
  - cbn [app for_loop fmap list_fmap concat]. by rewrite loop_body_raises.
  - apply Forall_cons in Hdone as [Hi Hdone].
    cbn [app for_loop fmap list_fmap concat].
    rewrite loop_body_returns by exact Hi.
    rewrite (IH _ k rest Hdone Hk). by rewrite <- !app_assoc.
Qed.

End Abort.

(** X4: if the SLURM client returns for the shards in [done] and raises
    for the next shard [k], the run ends there: the jobs of [done] and
    of [k] are the only ones submitted, the failed submission is the
    last thing that happens, and no closing message is printed. *)
Theorem X4_a_failed_submission_ends_the_run dt sr (done : list Z) (k : Z) (rest : list Z) :
  shard_indices = done ++ k :: rest ->
  Forall (fun i => sr (shard_job dt i) = true) done ->
  sr (shard_job dt k) = false ->
  let '(tr, o) := main true dt sr in
  o = Aborted
  /\ tr = concat (shard_events true dt <$> done)
          ++ [Print ("job_name >> " +:+ job_name (shard_job dt k));
              Print ("cmd >> " +:+ strip (collapsed_cmd k));
              Submit (shard_job dt k)]
  /\ submissions tr = shard_job dt <$> (done ++ [k])
  /\ last tr = Some (Submit (shard_job dt k)).
Proof.
  intros Hsplit Hdone Hk. unfold main. rewrite Hsplit.
  rewrite (for_loop_raises dt sr done [] k rest Hdone Hk). cbn [app].
  split; [reflexivity|]. split; [reflexivity|].
  assert (Hsubs : forall idxs,
             submissions (concat (shard_events true dt <$> idxs)) = shard_job dt <$> idxs).
  { induction idxs as [|i idxs IH]; [reflexivity|].
    cbn [fmap list_fmap concat]. unfold submissions in *. rewrite omap_app, IH.
    reflexivity. }
  split.
  - unfold submissions in *. rewrite omap_app, Hsubs, fmap_app. reflexivity.
  - rewrite last_app. reflexivity.
Qed.

Lemma X4_a_failed_submission_ends_the_run_witness :
  let sr := fun j : Job => negb (String.eqb (script j) (script (shard_job (fun _ => ""%string) 2))) in
  let '(tr, o) := main true (fun _ => ""%string) sr in
  o = Aborted
  /\ tr = concat (shard_events true (fun _ => ""%string) <$> [0; 1])
          ++ [Print ("job_name >> " +:+ job_name (shard_job (fun _ => ""%string) 2));
              Print ("cmd >> " +:+ strip (collapsed_cmd 2));
              Submit (shard_job (fun _ => ""%string) 2)]
  /\ submissions tr = shard_job (fun _ => ""%string) <$> ([0; 1] ++ [2])
  /\ last tr = Some (Submit (shard_job (fun _ => ""%string) 2)).
Proof.
  apply (X4_a_failed_submission_ends_the_run (fun _ => ""%string)
           (fun j => negb (String.eqb (script j) (script (shard_job (fun _ => ""%string) 2))))
           [0; 1] 2 (seqZ 3 29)).
  - reflexivity.
  - repeat constructor.
  - reflexivity.
Defined.

(** X5: a pretend run does not depend on the SLURM client, and prints
    the same 96 lines as a real run whose submissions all return,
    before the closing message. *)
Theorem X5_pretend_run_prints_what_the_real_run_prints dt sr sr' :
  main false dt sr = main false dt sr'
  /\ ((forall j, sr j = true) ->
      exists lines,
        length lines = 96%nat
        /\ printed (main true dt sr).1 = lines ++ [final_message true]
        /\ printed (main false dt sr').1 = lines ++ [final_message false]).
Proof.
  split.
  - rewrite !main_events by discriminate. reflexivity.
  - intros Hret. rewrite main_events by (intros _; exact Hret).
    rewrite main_events by discriminate. cbn [fst].
    assert (Hsame : forall idxs,
              printed (concat (shard_events true dt <$> idxs))
              = printed (concat (shard_events false dt <$> idxs))
              /\ length (printed (concat (shard_events false dt <$> idxs)))
                 = (3 * length idxs)%nat).
    { induction idxs as [|i idxs [IH IHlen]]; [split; reflexivity|].
      cbn [fmap list_fmap concat]. unfold printed in *.
      rewrite !omap_app, IH, length_app, IHlen. split; [reflexivity|].
      cbn [shard_events omap app list_omap length]. lia. }
    destruct (Hsame shard_indices) as [Heq Hlen].
    exists (printed (concat (shard_events false dt <$> shard_indices))).
    split; [rewrite Hlen; reflexivity|].
    unfold printed in *. rewrite !omap_app, Heq. split; reflexivity.
Qed.

Lemma X5_pretend_run_prints_what_the_real_run_prints_witness :
  exists lines,
    length lines = 96%nat
    /\ printed (main true (fun _ => "03/11/2026 11:01:00"%string) (fun _ => true)).1
       = lines ++ [final_message true]
    /\ printed (main false (fun _ => "03/11/2026 11:01:00"%string) (fun _ => false)).1
       = lines ++ [final_message false].
Proof.
  apply (X5_pretend_run_prints_what_the_real_run_prints
           (fun _ => "03/11/2026 11:01:00"%string) (fun _ => true) (fun _ => false)).
  reflexivity.
Defined.

End LauncherExtras.

(** * Further properties of the corrector trainer *)

Module CorrectorExtras.

Import Corrector CorrectorProofs.

Lemma blocks_fmap {A B} (f : A -> B) b n : forall l : list A,
  blocks b n (f <$> l) = (fmap (M:=list) f) <$> blocks b n l.
Proof.
  induction b as [|b IH]; intros l; cbn; [reflexivity|].
  by rewrite <- fmap_take, <- fmap_drop, IH.
Qed.

Lemma rows_tensor_map {A B} (f : A -> B) (t : Tensor A) :
  rows (tensor_map f t) = (fmap (M:=list) f) <$> rows t.
Proof.
  unfold rows, tensor_map. cbn [shape data].
  destruct (shape t); [reflexivity | apply blocks_fmap].
Qed.

Section Extras.

Context `{Collaborators}.

(** Two batches, wherever they are stored, that agree on what
    [compute_loss] reads give the same outcome and the same calls. *)
Lemma compute_loss_same_reads self model ro inputs1 inputs2 (w1 w2 : World)
    (d1 d2 : gmap string Value) :
  grad_enabled w1 = grad_enabled w2 ->
  inversion_trainer w1 = inversion_trainer w2 ->
  heap w1 !! inputs1 = Some d1 ->
  heap w2 !! inputs2 = Some d2 ->
  value_shape <$> d1 !! "input_ids"%string = value_shape <$> d2 !! "input_ids"%string ->
  d1 !! "embedder_input_ids"%string = d2 !! "embedder_input_ids"%string ->
  d1 !! "embedder_attention_mask"%string = d2 !! "embedder_attention_mask"%string ->
  d1 !! "labels"%string = d2 !! "labels"%string ->
  (compute_loss self model inputs1 ro w1).1 = (compute_loss self model inputs2 ro w2).1
  /\ exists new,
       trace (compute_loss self model inputs1 ro w1).2 = trace w1 ++ new
       /\ trace (compute_loss self model inputs2 ro w2).2 = trace w2 ++ new.
Proof.
  intros Hg Hit Hd1 Hd2 Hi He Hm Hl.
  destruct w1 as [g1 h1 it1 tr1], w2 as [g2 h2 it2 tr2].
  cbn in Hg, Hit, Hd1, Hd2. subst g2 it2.
  destruct (d1 !! "input_ids"%string) as [ids1|] eqn:Hi1;
    destruct (d2 !! "input_ids"%string) as [ids2|] eqn:Hi2;
    cbn in Hi; try discriminate.
  - injection Hi as Hsh.
    unfold compute_loss. unfold_ops.
    repeat (repeat (progress (cbn_ops; rewrite ?Hd1, ?Hd2, ?Hi1, ?Hi2, ?Hsh, ?He, ?Hm, ?Hl));
            try (case_match; cbn_ops_all; simplify_eq)).
    all: split; [reflexivity|].
    all: first
        [ exists []; split; symmetry; apply app_nil_r
        | eexists; split; rewrite <- ?app_assoc; reflexivity ].
  - unfold compute_loss. unfold_ops. cbn_ops. rewrite Hd1, Hd2, Hi1, Hi2.
    split; [reflexivity|]. exists []. split; symmetry; apply app_nil_r.
Qed.

(** X6: when the batch has its four fields and the embedding, the
    generation, the transform and the correction go through,
    [compute_loss] returns what the inversion model's forward returns
    on the two fake tensors, the labels and the corrected embedding; it
    makes four calls, the embedding with gradients off and the other
    three under the caller's gradient mode, and changes nothing else. *)
Theorem X6_compute_loss_returns_the_forward_loss self model inputs ro (w : World)
    (d : gmap string Value) ids B L eids emask fe gen h new labels :
  heap w !! inputs = Some d ->
  d !! "input_ids"%string = Some ids ->
  value_shape ids = [B; L] ->
  d !! "embedder_input_ids"%string = Some eids ->
  d !! "embedder_attention_mask"%string = Some emask ->
  call_embedding_model (it_model (inversion_trainer w)) eids emask = Ok fe ->
  inversion_model_generate (it_model (inversion_trainer w))
    (generate_inputs (fake_embedder_tensor B L) (fake_embedder_tensor B L) fe)
    the_generation_kwargs = Ok gen ->
  shift_and_append_eos gen B
    (eos_token_id (im_embedder_tokenizer (it_model (inversion_trainer w)))) = Ok h ->
  corrector_forward (self_model self) fe (VLong h)
    (VBool (tensor_ne h (pad_token_id (self_embedder_tokenizer self)))) = Ok new ->
  d !! "labels"%string = Some labels ->
  let fake := VFloat (fake_embedder_tensor B L) in
  compute_loss self model inputs ro w
  = (inversion_model_forward (it_model (inversion_trainer w)) fake fake labels (VFloat new),
     mkWorld (grad_enabled w) (heap w) (inversion_trainer w)
       (trace w ++
        [CallEmbeddingModel false eids emask;
         CallModelGenerate (grad_enabled w)
           (generate_inputs (fake_embedder_tensor B L) (fake_embedder_tensor B L) fe)
           the_generation_kwargs;
         CallCorrector (grad_enabled w) fe (VLong h)
           (VBool (tensor_ne h (pad_token_id (self_embedder_tokenizer self))));
         CallModelForward (grad_enabled w) fake fake labels (VFloat new)])).
Proof.
  intros Hd Hi Hsh He Hm Hfe Hgen Hh Hnew Hl fake.
  unfold compute_loss. unfold_ops.
  repeat (progress (cbn_ops;
                    rewrite ?Hd, ?Hi, ?Hsh, ?He, ?Hm, ?Hfe, ?Hgen, ?Hh, ?Hnew, ?Hl;
                    cbn [unpack2])).
  rewrite <- !app_assoc. reflexivity.
Qed.

(** X7: [compute_loss] raises [KeyError] on a batch without
    [input_ids], and [ValueError] when [input_ids] does not have two
    dimensions, in both cases before any model is called. *)
Theorem X7_compute_loss_checks_input_ids_first self model inputs ro (w : World)
    (d : gmap string Value) :
  heap w !! inputs = Some d ->
  (d !! "input_ids"%string = None ->
   compute_loss self model inputs ro w = (Raise (KeyError "input_ids"), w))
  /\ (forall ids, d !! "input_ids"%string = Some ids ->
        length (value_shape ids) <> 2%nat ->
        compute_loss self model inputs ro w = (Raise ValueError, w)).
Proof.
  intros Hd. split.
  - intros Hi. unfold compute_loss. unfold_ops. cbn_ops. by rewrite Hd, Hi.
  - intros ids Hi Hlen. unfold compute_loss. unfold_ops. cbn_ops. rewrite Hd, Hi.
    destruct (value_shape ids) as [|b [|l [|x rest]]]; cbn in Hlen |- *;
      try reflexivity. lia.
Qed.

(** X8: [compute_loss] reads [labels] last: on a batch without labels
    it raises [KeyError] only after the embedding, the generation and
    the correction model have run, and never calls the forward pass. *)
Theorem X8_compute_loss_reads_labels_last self model inputs ro (w : World)
    (d : gmap string Value) ids B L eids emask fe gen h new :
  heap w !! inputs = Some d ->
  d !! "input_ids"%string = Some ids ->
  value_shape ids = [B; L] ->
  d !! "embedder_input_ids"%string = Some eids ->
  d !! "embedder_attention_mask"%string = Some emask ->
  call_embedding_model (it_model (inversion_trainer w)) eids emask = Ok fe ->
  inversion_model_generate (it_model (inversion_trainer w))
    (generate_inputs (fake_embedder_tensor B L) (fake_embedder_tensor B L) fe)
    the_generation_kwargs = Ok gen ->
  shift_and_append_eos gen B
    (eos_token_id (im_embedder_tokenizer (it_model (inversion_trainer w)))) = Ok h ->
  corrector_forward (self_model self) fe (VLong h)
    (VBool (tensor_ne h (pad_token_id (self_embedder_tokenizer self)))) = Ok new ->
  d !! "labels"%string = None ->
  compute_loss self model inputs ro w
  = (Raise (KeyError "labels"),
     mkWorld (grad_enabled w) (heap w) (inversion_trainer w)
       (trace w ++
        [CallEmbeddingModel false eids emask;
         CallModelGenerate (grad_enabled w)
           (generate_inputs (fake_embedder_tensor B L) (fake_embedder_tensor B L) fe)
           the_generation_kwargs;
         CallCorrector (grad_enabled w) fe (VLong h)
           (VBool (tensor_ne h (pad_token_id (self_embedder_tokenizer self))))])).
Proof.
  intros Hd Hi Hsh He Hm Hfe Hgen Hh Hnew Hl.
  unfold compute_loss. unfold_ops.
  repeat (progress (cbn_ops;
                    rewrite ?Hd, ?Hi, ?Hsh, ?He, ?Hm, ?Hfe, ?Hgen, ?Hh, ?Hnew, ?Hl;
                    cbn [unpack2])).
  rewrite <- !app_assoc. reflexivity.
Qed.

(** X9: a generation of another length than [seq_length] is not
    detected: for a generation of shape (B, L') with L' at least 1 the
    correction model is called on a hypothesis of shape (B, L'). *)
Theorem X9_a_generation_of_another_length_goes_through self model inputs ro (w : World)
    (d : gmap string Value) ids B L L' eids emask fe gen :
  heap w !! inputs = Some d ->
  d !! "input_ids"%string = Some ids ->
  value_shape ids = [B; L] ->
  d !! "embedder_input_ids"%string = Some eids ->
  d !! "embedder_attention_mask"%string = Some emask ->
  call_embedding_model (it_model (inversion_trainer w)) eids emask = Ok fe ->
  inversion_model_generate (it_model (inversion_trainer w))
    (generate_inputs (fake_embedder_tensor B L) (fake_embedder_tensor B L) fe)
    the_generation_kwargs = Ok gen ->
  shape gen = [B; L'] ->
  well_formed gen ->
  (1 <= L')%nat ->
  exists h mask,
    shape h = [B; L']
    /\ In (CallCorrector (grad_enabled w) fe (VLong h) mask)
          (trace (compute_loss self model inputs ro w).2).
Proof.
  intros Hd Hi Hsh He Hm Hfe Hgen Hgsh Hwf HL.
  destruct (shift_and_append_eos_rows gen B L'
              (eos_token_id (im_embedder_tokenizer (it_model (inversion_trainer w))))
              Hgsh Hwf) as (h & Hh & Hhsh & _).
  destruct (compute_loss_calls self model inputs ro w d ids B L eids emask fe gen h
              Hd Hi Hsh He Hm Hfe Hgen Hh) as (rest & Htr & _).
  exists h, (VBool (tensor_ne h (pad_token_id (self_embedder_tokenizer self)))).
  split; [rewrite Hhsh; do 2 f_equal; lia|].
  rewrite Htr. apply in_or_app. right. apply in_or_app. left. cbn. auto.
Qed.

Lemma compute_loss_transform_raises self model inputs ro (w : World)
    (d : gmap string Value) ids B L eids emask fe gen e :
  heap w !! inputs = Some d ->
  d !! "input_ids"%string = Some ids ->
  value_shape ids = [B; L] ->
  d !! "embedder_input_ids"%string = Some eids ->
  d !! "embedder_attention_mask"%string = Some emask ->
  call_embedding_model (it_model (inversion_trainer w)) eids emask = Ok fe ->
  inversion_model_generate (it_model (inversion_trainer w))
    (generate_inputs (fake_embedder_tensor B L) (fake_embedder_tensor B L) fe)
    the_generation_kwargs = Ok gen ->
  shift_and_append_eos gen B
    (eos_token_id (im_embedder_tokenizer (it_model (inversion_trainer w)))) = Raise e ->
  compute_loss self model inputs ro w
  = (Raise e,
     mkWorld (grad_enabled w) (heap w) (inversion_trainer w)
       (trace w ++
        [CallEmbeddingModel false eids emask;
         CallModelGenerate (grad_enabled w)
           (generate_inputs (fake_embedder_tensor B L) (fake_embedder_tensor B L) fe)
           the_generation_kwargs])).
Proof.
  intros Hd Hi Hsh He Hm Hfe Hgen Hh.
  unfold compute_loss. unfold_ops.
  repeat (progress (cbn_ops;
                    rewrite ?Hd, ?Hi, ?Hsh, ?He, ?Hm, ?Hfe, ?Hgen, ?Hh;
                    cbn [unpack2])).
  rewrite <- !app_assoc. reflexivity.
Qed.

Lemma shift_and_append_eos_errors (gen : Tensor Z) (B : nat) (eos : Z) :
  (forall B' L', shape gen = [B'; L'] -> B' <> B ->
     shift_and_append_eos gen B eos = Raise RuntimeError)
  /\ ((length (shape gen) < 2)%nat -> shift_and_append_eos gen B eos = Raise IndexError).
Proof.
  unfold shift_and_append_eos, index_all_from1, torch_cat_dim1. split.
  - intros B' L' Hsh Hne. rewrite Hsh. cbn [shape].
    change (shape (eos_tokens B eos)) with [B; 1%nat]. cbn beta iota.
    rewrite decide_False; [reflexivity|]. intros [? _]. contradiction.
  - intros Hlen. destruct (shape gen) as [|b [|l rest]]; cbn in Hlen |- *;
      try reflexivity. lia.
Qed.

(** X10: a generation whose batch dimension differs from the batch's
    makes [compute_loss] raise [RuntimeError], and one of fewer than two
    dimensions [IndexError]; both after the generation and before the
    correction model is called. *)
Theorem X10_a_generation_of_the_wrong_rank_or_batch_raises self model inputs ro (w : World)
    (d : gmap string Value) ids B L eids emask fe gen :
  heap w !! inputs = Some d ->
  d !! "input_ids"%string = Some ids ->
  value_shape ids = [B; L] ->
  d !! "embedder_input_ids"%string = Some eids ->
  d !! "embedder_attention_mask"%string = Some emask ->
  call_embedding_model (it_model (inversion_trainer w)) eids emask = Ok fe ->
  inversion_model_generate (it_model (inversion_trainer w))
    (generate_inputs (fake_embedder_tensor B L) (fake_embedder_tensor B L) fe)
    the_generation_kwargs = Ok gen ->
  let stopped e :=
    compute_loss self model inputs ro w
    = (Raise e,
       mkWorld (grad_enabled w) (heap w) (inversion_trainer w)
         (trace w ++
          [CallEmbeddingModel false eids emask;
           CallModelGenerate (grad_enabled w)
             (generate_inputs (fake_embedder_tensor B L) (fake_embedder_tensor B L) fe)
             the_generation_kwargs])) in
  (forall B' L', shape gen = [B'; L'] -> B' <> B -> stopped RuntimeError)
  /\ ((length (shape gen) < 2)%nat -> stopped IndexError).
Proof.
  intros Hd Hi Hsh He Hm Hfe Hgen stopped. subst stopped.
  destruct (shift_and_append_eos_errors gen B
              (eos_token_id (im_embedder_tokenizer (it_model (inversion_trainer w)))))
    as [Hbatch Hrank].
  split.
  - intros B' L' Hgsh Hne.
    apply (compute_loss_transform_raises self model inputs ro w d ids B L eids emask fe gen);
      try assumption. by apply (Hbatch B' L').
  - intros Hlen.
    apply (compute_loss_transform_raises self model inputs ro w d ids B L eids emask fe gen);
      try assumption. by apply Hrank.
Qed.

(** X12: [generate] either reaches the delegated call, its last call,
    or raises having left every dictionary, the inversion trainer and
    the gradient mode as they were, with all calls made so far run
    with gradients off. *)
Theorem X12_generate_writes_only_when_it_delegates self inputs kw (w : World) :
  let r := generate self inputs kw w in
  exists new,
    trace r.2 = trace w ++ new
    /\ ((exists before d', new = before ++ [CallTrainerGenerate (grad_enabled w) d' kw])
        \/ ((exists e, r.1 = Raise e)
            /\ r.2 = mkWorld (grad_enabled w) (heap w) (inversion_trainer w) (trace w ++ new)
            /\ Forall (fun c => call_grad c = Some false) new)).
Proof.
  unfold generate. unfold_ops. cbn_ops.
  repeat (case_match; simplify_eq/=).
  all: try match goal with
           | Hnone : <[_ := _]> _ !! _ = None |- _ =>
               rewrite lookup_insert_eq in Hnone; discriminate
           end.
  all: first
    [ exists []; split; [symmetry; apply app_nil_r|]; right;
      split; [eexists; reflexivity|]; split; [by rewrite app_nil_r; destruct w | constructor]
    | eexists; split; [rewrite <- ?app_assoc; reflexivity|]; right;
      split; [eexists; reflexivity|]; split;
        [rewrite <- ?app_assoc; reflexivity | repeat constructor]
    | eexists; split; [rewrite <- ?app_assoc; reflexivity|]; left;
      eexists [_; _], _; reflexivity ].
Qed.

(** X13: [compute_loss] reads only [input_ids], [embedder_input_ids],
    [embedder_attention_mask] and [labels]: setting any other field of
    the batch (such as [frozen_embeddings], which [generate] writes)
    changes neither its result nor its calls. *)
Theorem X13_compute_loss_ignores_the_other_fields self model inputs ro (w : World)
    (d : gmap string Value) (key : string) (v : Value) :
  heap w !! inputs = Some d ->
  key <> "input_ids"%string ->
  key <> "embedder_input_ids"%string ->
  key <> "embedder_attention_mask"%string ->
  key <> "labels"%string ->
  let w' := set_heap (<[inputs := <[key := v]> d]> (heap w)) w in
  (compute_loss self model inputs ro w').1 = (compute_loss self model inputs ro w).1
  /\ exists new,
       trace (compute_loss self model inputs ro w').2 = trace w ++ new
       /\ trace (compute_loss self model inputs ro w).2 = trace w ++ new.
Proof.
  intros Hd H1 H2 H3 H4 w'.
  apply (compute_loss_same_reads self model ro inputs inputs w' w (<[key := v]> d) d);
    try reflexivity; try exact Hd.
  - subst w'. cbn. apply lookup_insert_eq.
  - by rewrite lookup_insert_ne.
  - by rewrite lookup_insert_ne.
  - by rewrite lookup_insert_ne.
  - by rewrite lookup_insert_ne.
Qed.

Lemma to_device_fmap dev (d : gmap string Value) : to_device dev <$> d = d.
Proof.
  apply map_eq. intros k. rewrite lookup_fmap. by destruct (d !! k).
Qed.

(** X14: [prediction_step] works on a copy of the batch: afterwards
    there is exactly one new dictionary, holding the batch's tensors, at
    an address that was free, and the caller's batch is as it was. *)
Theorem X14_prediction_step_works_on_a_copy self model inputs b ik (w : World)
    (d : gmap string Value) :
  heap w !! inputs = Some d ->
  let w' := (prediction_step self model inputs b ik w).2 in
  heap w !! fresh (dom (heap w)) = None
  /\ heap w' = <[fresh (dom (heap w)) := d]> (heap w)
  /\ heap w' !! inputs = Some d.
Proof.
  intros Hd w'. subst w'.
  assert (Hfresh : heap w !! fresh (dom (heap w)) = None).
  { apply not_elem_of_dom, is_fresh. }
  rewrite (prediction_step_run _ _ _ _ _ _ d Hd). cbn zeta. cbn [snd].
  match goal with |- context [compute_loss ?s ?m ?l ?r ?w0] =>
    pose proof (compute_loss_frame s m l r w0) as (Hheap & _)
  end.
  unfold set_grad. cbn [heap] in *. rewrite Hheap, to_device_fmap.
  split; [exact Hfresh|]. split; [reflexivity|].
  rewrite lookup_insert_ne; [exact Hd|]. intros Heq. rewrite Heq in Hfresh. congruence.
Qed.


(** X16: [generate] reads the batch in order: without
    [embedder_input_ids] it raises [KeyError] before any call; without
    [input_ids] it raises after the embedding model has been called; and
    an exception of the correction model is passed on.  In all three
    cases the batch is unchanged and the gradient mode restored. *)
Theorem X16_generate_reads_the_batch_in_order self inputs kw (w : World)
    (d : gmap string Value) :
  heap w !! inputs = Some d ->
  (d !! "embedder_input_ids"%string = None ->
   generate self inputs kw w = (Raise (KeyError "embedder_input_ids"), w))
  /\ (forall eids emask fe,
        d !! "embedder_input_ids"%string = Some eids ->
        d !! "embedder_attention_mask"%string = Some emask ->
        call_embedding_model (it_model (inversion_trainer w)) eids emask = Ok fe ->
        d !! "input_ids"%string = None ->
        generate self inputs kw w
        = (Raise (KeyError "input_ids"),
           mkWorld (grad_enabled w) (heap w) (inversion_trainer w)
                   (trace w ++ [CallEmbeddingModel false eids emask])))
  /\ (forall eids emask ids mask fe e,
        d !! "embedder_input_ids"%string = Some eids ->
        d !! "embedder_attention_mask"%string = Some emask ->
        call_embedding_model (it_model (inversion_trainer w)) eids emask = Ok fe ->
        d !! "input_ids"%string = Some ids ->
        d !! "attention_mask"%string = Some mask ->
        corrector_forward (self_model self) fe ids mask = Raise e ->
        generate self inputs kw w
        = (Raise e,
           mkWorld (grad_enabled w) (heap w) (inversion_trainer w)
                   (trace w ++ [CallEmbeddingModel false eids emask;
                                CallCorrector false fe ids mask]))).
Proof.
  intros Hd. split; [|split].
  - intros He. unfold generate. unfold_ops. cbn_ops. rewrite Hd, He. by destruct w.
  - intros eids emask fe He Hm Hfe Hi. unfold generate. unfold_ops.
    repeat (progress (cbn_ops; rewrite ?Hd, ?He, ?Hm, ?Hfe, ?Hi)). reflexivity.
  - intros eids emask ids mask fe e He Hm Hfe Hi Ha Hnew. unfold generate. unfold_ops.
    repeat (progress (cbn_ops; rewrite ?Hd, ?He, ?Hm, ?Hfe, ?Hi, ?Ha, ?Hnew)).
    rewrite <- !app_assoc. reflexivity.
Qed.

End Extras.

(** X11: for an eos id and a padding id that are values of
    [torch.long], the attention mask of the hypothesis has the
    hypothesis' shape; each of its rows is the row of the generation
    without its first token compared with the padding id, followed by
    the comparison of the eos id with the padding id, so its last column
    is false exactly when the two ids are equal. *)
Theorem X11_attention_mask_of_the_hypothesis (gen : Tensor Z) (B L : nat) (eos pad : Z) :
  shape gen = [B; L] ->
  well_formed gen ->
  in_int64 eos ->
  in_int64 pad ->
  exists h,
    shift_and_append_eos gen B eos = Ok h
    /\ shape (tensor_ne h pad) = shape h
    /\ rows (tensor_ne h pad)
       = (fun r => ((fun x => negb (x =? pad)) <$> drop 1 r) ++ [negb (eos =? pad)])
           <$> rows gen
    /\ Forall (fun r => last r = Some (negb (eos =? pad))) (rows (tensor_ne h pad)).
Proof.
  intros Hsh Hwf Heos _.
  destruct (shift_and_append_eos_rows gen B L eos Hsh Hwf) as (h & Hh & _ & Hrows & _).
  rewrite (wrap_int64_id eos Heos) in Hrows.
  exists h. split; [exact Hh|]. split; [reflexivity|].
  assert (Hmask : rows (tensor_ne h pad)
       = (fun r => ((fun x => negb (x =? pad)) <$> drop 1 r) ++ [negb (eos =? pad)])
           <$> rows gen).
  { unfold tensor_ne. rewrite rows_tensor_map, Hrows, <- list_fmap_compose.
    apply list_fmap_ext. intros _ r _. cbn. by rewrite fmap_app. }
  split; [exact Hmask|]. rewrite Hmask.
  apply Forall_fmap, Forall_forall. intros r _. apply last_snoc.
Qed.

End CorrectorExtras.

(** * The further properties on the concrete instance *)

Module CorrectorExtrasExamples.

Import Corrector Demo CorrectorProofs CorrectorExtras.

Lemma X6_compute_loss_returns_the_forward_loss_witness :
  compute_loss demo_self 4%nat 0%nat false (demo_world demo_batch)
  = (Ok (mkTensor [] [89]),
     mkWorld true {[ 0%nat := demo_batch ]} demo_inversion_trainer
       ([] ++
        [CallEmbeddingModel false demo_embedder_ids demo_ones;
         CallModelGenerate true
           (generate_inputs (fake_embedder_tensor 2 3) (fake_embedder_tensor 2 3)
                            demo_embedding)
           the_generation_kwargs;
         CallCorrector true demo_embedding
           (VLong (mkTensor [2; 3]%nat [11; 12; 1; 14; 15; 1]))
           (VBool (tensor_ne (mkTensor [2; 3]%nat [11; 12; 1; 14; 15; 1]) 0));
         CallModelForward true (VFloat (fake_embedder_tensor 2 3))
           (VFloat (fake_embedder_tensor 2 3)) demo_ids (VFloat demo_corrected)])).
Proof.
  rewrite (X6_compute_loss_returns_the_forward_loss demo_self 4%nat 0%nat false
             (demo_world demo_batch) demo_batch demo_ids 2 3 demo_embedder_ids demo_ones
             demo_embedding demo_generation (mkTensor [2; 3]%nat [11; 12; 1; 14; 15; 1])
             demo_corrected demo_ids); reflexivity.
Defined.

Lemma X7_compute_loss_checks_input_ids_first_witness :
  compute_loss demo_self 4%nat 0%nat false (demo_world demo_batch_no_input_ids)
  = (Raise (KeyError "input_ids"), demo_world demo_batch_no_input_ids)
  /\ compute_loss demo_self 4%nat 0%nat false (demo_world demo_batch_flat_ids)
     = (Raise ValueError, demo_world demo_batch_flat_ids).
Proof.
  split.
  - destruct (X7_compute_loss_checks_input_ids_first demo_self 4%nat 0%nat false
                (demo_world demo_batch_no_input_ids) demo_batch_no_input_ids)
      as [Hmissing _]; [reflexivity|].
    apply Hmissing. reflexivity.
  - destruct (X7_compute_loss_checks_input_ids_first demo_self 4%nat 0%nat false
                (demo_world demo_batch_flat_ids) demo_batch_flat_ids)
      as [_ Hflat]; [reflexivity|].
    apply (Hflat (VLong (mkTensor [6]%nat [5; 6; 7; 8; 9; 4]))); [reflexivity|].
    cbn. lia.
Defined.

Lemma X8_compute_loss_reads_labels_last_witness :
  compute_loss demo_self 4%nat 0%nat false (demo_world demo_batch_no_labels)
  = (Raise (KeyError "labels"),
     mkWorld true {[ 0%nat := demo_batch_no_labels ]} demo_inversion_trainer
       ([] ++
        [CallEmbeddingModel false demo_embedder_ids demo_ones;
         CallModelGenerate true
           (generate_inputs (fake_embedder_tensor 2 3) (fake_embedder_tensor 2 3)
                            demo_embedding)
           the_generation_kwargs;
         CallCorrector true demo_embedding
           (VLong (mkTensor [2; 3]%nat [11; 12; 1; 14; 15; 1]))
           (VBool (tensor_ne (mkTensor [2; 3]%nat [11; 12; 1; 14; 15; 1]) 0))])).
Proof.
  rewrite (X8_compute_loss_reads_labels_last demo_self 4%nat 0%nat false
             (demo_world demo_batch_no_labels) demo_batch_no_labels demo_ids 2 3
             demo_embedder_ids demo_ones demo_embedding demo_generation
             (mkTensor [2; 3]%nat [11; 12; 1; 14; 15; 1]) demo_corrected); reflexivity.
Defined.

Lemma X9_a_generation_of_another_length_goes_through_witness :
  exists h mask,
    shape h = [2; 4]%nat
    /\ In (CallCorrector true demo_embedding (VLong h) mask)
          (trace (@compute_loss demo_objects (variant_collaborators one_longer true)
                    demo_self 4%nat 0%nat false (demo_world demo_batch)).2).
Proof.
  apply (@X9_a_generation_of_another_length_goes_through demo_objects
           (variant_collaborators one_longer true) demo_self 4%nat 0%nat false
           (demo_world demo_batch) demo_batch demo_ids 2 3 4 demo_embedder_ids demo_ones
           demo_embedding (mkTensor [2; 4]%nat [10; 11; 12; 13; 14; 15; 16; 17]));
    first [reflexivity | lia].
Defined.

Lemma X10_a_generation_of_the_wrong_rank_or_batch_raises_witness :
  (@compute_loss demo_objects (variant_collaborators one_more_row true)
     demo_self 4%nat 0%nat false (demo_world demo_batch)).1 = Raise RuntimeError
  /\ (@compute_loss demo_objects (variant_collaborators (fun _ => [6]%nat) true)
        demo_self 4%nat 0%nat false (demo_world demo_batch)).1 = Raise IndexError.
Proof.
  split.
  - destruct (@X10_a_generation_of_the_wrong_rank_or_batch_raises demo_objects
                (variant_collaborators one_more_row true) demo_self 4%nat 0%nat false
                (demo_world demo_batch) demo_batch demo_ids 2 3 demo_embedder_ids demo_ones
                demo_embedding
                (mkTensor [3; 3]%nat [10; 11; 12; 13; 14; 15; 16; 17; 18]))
      as [Hbatch _]; [reflexivity ..|].
    rewrite (Hbatch 3%nat 3%nat); [reflexivity | reflexivity | lia].
  - destruct (@X10_a_generation_of_the_wrong_rank_or_batch_raises demo_objects
                (variant_collaborators (fun _ => [6]%nat) true) demo_self 4%nat 0%nat false
                (demo_world demo_batch) demo_batch demo_ids 2 3 demo_embedder_ids demo_ones
                demo_embedding (mkTensor [6]%nat [10; 11; 12; 13; 14; 15]))
      as [_ Hrank]; [reflexivity ..|].
    rewrite Hrank; [reflexivity | cbn; lia].
Defined.

Lemma X11_attention_mask_of_the_hypothesis_witness :
  exists h,
    shift_and_append_eos demo_generation 2 12 = Ok h
    /\ shape (tensor_ne h 12) = shape h
    /\ rows (tensor_ne h 12)
       = (fun r => ((fun x => negb (x =? 12)) <$> drop 1 r) ++ [negb (12 =? 12)])
           <$> rows demo_generation
    /\ Forall (fun r => last r = Some (negb (12 =? 12))) (rows (tensor_ne h 12)).
Proof.
  apply (X11_attention_mask_of_the_hypothesis demo_generation 2 3 12 12);
    first [reflexivity | unfold in_int64; lia].
Defined.

Lemma X13_compute_loss_ignores_the_other_fields_witness :
  (compute_loss demo_self 4%nat 0%nat false
     (set_heap (<[0%nat := <["frozen_embeddings"%string := @VFloat demo_objects demo_corrected]>
                                demo_batch]>
                  (heap (demo_world demo_batch)))
               (demo_world demo_batch))).1
  = (compute_loss demo_self 4%nat 0%nat false (demo_world demo_batch)).1.
Proof.
  apply (X13_compute_loss_ignores_the_other_fields demo_self 4%nat 0%nat false
           (demo_world demo_batch) demo_batch "frozen_embeddings"
           (@VFloat demo_objects demo_corrected));
    first [reflexivity | discriminate].
Defined.

Lemma X14_prediction_step_works_on_a_copy_witness :
  let w' := (prediction_step demo_self 4%nat 0%nat true None (demo_world demo_batch)).2 in
  heap (demo_world demo_batch) !! fresh (dom (heap (demo_world demo_batch))) = None
  /\ heap w' = <[fresh (dom (heap (demo_world demo_batch))) := demo_batch]>
                 (heap (demo_world demo_batch))
  /\ heap w' !! 0%nat = Some demo_batch.
Proof.
  apply (X14_prediction_step_works_on_a_copy demo_self 4%nat 0%nat true None
           (demo_world demo_batch) demo_batch). reflexivity.
Defined.


Lemma X16_generate_reads_the_batch_in_order_witness :
  generate demo_self 0%nat ∅ (demo_world demo_batch_no_embedder_ids)
  = (Raise (KeyError "embedder_input_ids"), demo_world demo_batch_no_embedder_ids)
  /\ generate demo_self 0%nat ∅ (demo_world demo_batch_no_input_ids)
     = (Raise (KeyError "input_ids"),
        mkWorld true {[ 0%nat := demo_batch_no_input_ids ]} demo_inversion_trainer
                ([] ++ [CallEmbeddingModel false demo_embedder_ids demo_ones]))
  /\ @generate demo_objects (variant_collaborators id false)
       demo_self 0%nat ∅ (demo_world demo_batch)
     = (Raise (External 7),
        mkWorld true {[ 0%nat := demo_batch ]} demo_inversion_trainer
                ([] ++ [CallEmbeddingModel false demo_embedder_ids demo_ones;
                        CallCorrector false demo_embedding demo_ids demo_ones])).
Proof.
  split; [|split].
  - destruct (X16_generate_reads_the_batch_in_order demo_self 0%nat ∅
                (demo_world demo_batch_no_embedder_ids) demo_batch_no_embedder_ids)
      as (Hfirst & _ & _); [reflexivity|].
    apply Hfirst. reflexivity.
  - destruct (X16_generate_reads_the_batch_in_order demo_self 0%nat ∅
                (demo_world demo_batch_no_input_ids) demo_batch_no_input_ids)
      as (_ & Hsecond & _); [reflexivity|].
    rewrite (Hsecond demo_embedder_ids demo_ones demo_embedding); reflexivity.
  - destruct (@X16_generate_reads_the_batch_in_order demo_objects
                (variant_collaborators id false) demo_self 0%nat ∅
                (demo_world demo_batch) demo_batch)
      as (_ & _ & Hthird); [reflexivity|].
    rewrite (Hthird demo_embedder_ids demo_ones demo_ids demo_ones demo_embedding
                    (External 7)); reflexivity.
Defined.

End CorrectorExtrasExamples.
